(** * AI Programming Tutor: request routing and streamed-reply aggregation

    A shallow embedding of [src/ai_programming_tutor.py]: the three model
    handlers [chat_gpt_answer_stream], [chat_claude_answer_stream],
    [chat_llama_answer_stream] and the dispatcher [chat_router].

    The handlers are Python generators that talk to a remote service and
    build list objects.  They are embedded in a small monad that threads
    the store of list objects, records every backend call and every
    [yield] in a trace, and carries a raised exception until a
    [try]/[except] catches it. *)

From Stdlib Require Import Ascii String QArith.
From stdpp Require Import base numbers strings list.

Local Open Scope string_scope.
Local Open Scope list_scope.

(** ** Python strings

    A [str] is modelled as a [string] whose characters are code points
    below 256.  [truthy] is the test Python applies to a string used as a
    condition; [strip] is [str.strip()] with no argument. *)

Definition truthy (s : string) : bool :=
  match s with
  | EmptyString => false
  | String _ _ => true
  end.

(** [str.isspace] on one code point below 256: tab to carriage return,
    the four separators 28..31, space, NEL (133) and the no-break space
    (160). *)
Definition isspace (c : ascii) : bool :=
  let n := nat_of_ascii c in
  (((9 <=? n) && (n <=? 13)) || ((28 <=? n) && (n <=? 32))
   || (n =? 133) || (n =? 160))%nat.

Fixpoint lstrip (s : string) : string :=
  match s with
  | EmptyString => EmptyString
  | String c s' => if isspace c then lstrip s' else s
  end.

Fixpoint rstrip (s : string) : string :=
  match s with
  | EmptyString => EmptyString
  | String c s' =>
      match rstrip s' with
      | EmptyString => if isspace c then EmptyString else String c EmptyString
      | r => String c r
      end
  end.

Definition strip (s : string) : string := rstrip (lstrip s).

(** What it is for a string to be trimmed: it neither starts nor ends
    with a space; what was cut off is blank. *)
Fixpoint blank (s : string) : bool :=
  match s with
  | EmptyString => true
  | String c s' => isspace c && blank s'
  end.

Definition starts_with_space (s : string) : bool :=
  match s with
  | EmptyString => false
  | String c _ => isspace c
  end.

Fixpoint ends_with_space (s : string) : bool :=
  match s with
  | EmptyString => false
  | String c EmptyString => isspace c
  | String _ s' => ends_with_space s'
  end.

(** The newline and the double quote, which a literal cannot hold. *)
Definition nl : string := String (ascii_of_nat 10) EmptyString.
Definition dq : string := String (ascii_of_nat 34) EmptyString.

(** [unlines] puts a newline after every line, as a triple-quoted literal
    does. *)
Fixpoint unlines (ls : list string) : string :=
  match ls with
  | [] => EmptyString
  | l :: ls' => l +:+ nl +:+ unlines ls'
  end.

(** ** Configuration *)

Definition GPT_MODEL : string := "gpt-4o-mini".
Definition CLAUDE_MODEL : string := "claude-3-haiku-20240307".
Definition LLAMA_MODEL : string := "llama3.2".

Definition SYSTEM_PROMPT : string :=
  unlines [
    "";
    "You are a friendly, expert, and highly structured programming tutor.";
    "";
    "Your mission is to teach code in a way that's:";
    "- Clear, motivating, and truly understandable";
    "- Focused on both what the code does and why it was written that way";
    "- Adapted to the user's level, with no assumptions or unexplained jargon";
    "";
    "## EXPLANATION FORMAT";
    "";
    "For each code snippet, use the following layout:";
    "";
    "**Code:** `for i in range(5):`";
    "";
    "**Explanation:**  ";
    "A for loop that repeats 5 times, with i going from 0 to 4.  ";
    "This is useful for running code multiple times in a row.";
    "";
    "If the code spans multiple lines, break it into small blocks, and explain block by block.";
    "";
    "## VISUAL FORMAT";
    "";
    "Use Markdown formatting to create a clean, easy-to-follow explanation:";
    "- Inline code: use backticks `like_this()`";
    "- **Bold**: for key terms and transitions";
    "- Bullets: for breaking down multi-part logic";
    "- Line breaks: between concepts to improve visual flow";
    "- Headings: if needed, for sectioned explanations";
    "";
    "## TEACHING STRATEGY";
    "";
    "- Be concise, but don't skip steps";
    "- Use real-world analogies where helpful";
    "- Use simple, progressive language";
    "- If code is long or complex, ask if they want line-by-line or section-by-section explanation";
    "- If a concept is advanced or new, explain it from first principles";
    "- Add clarifying notes when code may look strange or tricky";
    "- When appropriate, suggest small modifications or exercises";
    "";
    "## BEST PRACTICES";
    "";
    "Do:";
    "- Always explain both what the code does and why it's structured that way";
    "- Be supportive and encouraging";
    "- Mention potential pitfalls or common mistakes";
    "- Adapt explanations to the user's questions and level";
    "";
    "Do NOT:";
    "- Use unexplained jargon or overly technical language";
    "- Assume the user " +:+ dq +:+ "already knows" +:+ dq;
    "- Skip past logic, even if it seems " +:+ dq +:+ "obvious" +:+ dq;
    "";
    "You're here to help the user think like a programmer."
  ].

(** ** Messages and list objects

    A message is a dict with the keys [role] and [content].  A
    conversation is a Python list object; the handlers receive a
    reference to it, so lists live in a store and are named by their
    index in it. *)

Record Message := { role : string; content : string }.

Definition user_msg (body : string) : Message :=
  {| role := "user"; content := body |}.
Definition assistant_msg (body : string) : Message :=
  {| role := "assistant"; content := body |}.
Definition system_msg (body : string) : Message :=
  {| role := "system"; content := body |}.

Abbreviation loc := nat (only parsing).
Abbreviation Heap := (list (list Message)) (only parsing).

(** ** Exceptions

    Every failure the handlers can meet is an instance of [Exception];
    the handlers only use [str(e)]. *)

Record Exception := { str : string }.

(** [xs[0]] on a list. *)
Definition IndexError : Exception := {| str := "list index out of range" |}.

(** ** Backends

    The three services are external; a call is described by the keyword
    arguments the handler passes, and answered by a stream of chunks
    that may end with an exception.  A call may also raise at once. *)

(** A temperature is the decimal literal of the source, as a rational. *)

Record OpenAIRequest := {
  oa_model : string;
  oa_messages : list Message;
  oa_temperature : Q;
  oa_stream : bool
}.

Record AnthropicRequest := {
  an_model : string;
  an_max_tokens : Z;
  an_temperature : Q;
  an_system : string;
  an_messages : list Message
}.

Record OllamaRequest := {
  ol_model : string;
  ol_messages : list Message;
  ol_stream : bool
}.

(** [chunk.choices], each choice reduced to [delta.content], which is
    [None] or a string. *)
Record GptChunk := { choices : list (option string) }.

(** [chunk.type] and, where [chunk.delta] has the attribute, its [text]. *)
Record ClaudeChunk := { type : string; delta_text : option string }.

(** A chunk of the local daemon: the value under ["message"] if the key
    is there, and in it the value under ["content"] if that key is there. *)
Record LlamaChunk := { message : option (option string) }.

Record Stream (C : Type) := {
  chunks : list C;
  failure : option Exception
}.
Arguments chunks {C} _.
Arguments failure {C} _.
Arguments Build_Stream {C} _ _.

Definition Reply (C : Type) : Type := Exception + Stream C.

Record Backends := {
  openai_reply : OpenAIRequest -> Reply GptChunk;
  anthropic_reply : AnthropicRequest -> Reply ClaudeChunk;
  ollama_reply : OllamaRequest -> Reply LlamaChunk
}.

(** ** Generators

    A run of a generator starts from a store and ends with a store, an
    outcome (it returned, or an exception left it) and the trace of what
    it did on the way: the backend calls it made and the values it
    yielded.  A [Yield] event keeps the store of the moment, which is
    what the consumer of the generator sees when it draws the value. *)

Inductive Event :=
| CallOpenAI (req : OpenAIRequest)
| CallAnthropic (req : AnthropicRequest)
| CallOllama (req : OllamaRequest)
| Yield (seen : Heap) (value : loc * string * string).

Inductive Outcome (A : Type) :=
| Returned (a : A)
| Raised (e : Exception).
Arguments Returned {A} _.
Arguments Raised {A} _.

Record Run (A : Type) := {
  outcome : Outcome A;
  store : Heap;
  trace : list Event
}.
Arguments outcome {A} _.
Arguments store {A} _.
Arguments trace {A} _.
Arguments Build_Run {A} _ _ _.

Definition Gen (A : Type) : Type := Heap -> Run A.

Definition ret {A} (a : A) : Gen A :=
  fun h => {| outcome := Returned a; store := h; trace := [] |}.

Definition raise {A} (e : Exception) : Gen A :=
  fun h => {| outcome := Raised e; store := h; trace := [] |}.

Definition bind {A B} (m : Gen A) (k : A -> Gen B) : Gen B :=
  fun h =>
    let r := m h in
    match outcome r with
    | Returned a =>
        let r' := k a (store r) in
        {| outcome := outcome r'; store := store r';
           trace := trace r ++ trace r' |}
    | Raised e =>
        {| outcome := Raised e; store := store r; trace := trace r |}
    end.

(** [try: body except Exception as e: handler e] *)
Definition try_except {A} (body : Gen A) (handler : Exception -> Gen A)
  : Gen A :=
  fun h =>
    let r := body h in
    match outcome r with
    | Returned _ => r
    | Raised e =>
        let r' := handler e (store r) in
        {| outcome := outcome r'; store := store r';
           trace := trace r ++ trace r' |}
    end.

Notation "'let!' x ':=' m 'in' k" := (bind m (fun x => k))
  (at level 10, x name, m at level 100, k at level 200).
Notation "'let!' '_' ':=' m 'in' k" := (bind m (fun _ => k))
  (at level 10, m at level 100, k at level 200).

(** The list object a reference names. *)
Definition deref (h : Heap) (l : loc) : list Message := default [] (h !! l).

(** Reading the items of a list ([for msg in history]). *)
Definition list_items (l : loc) : Gen (list Message) :=
  fun h => {| outcome := Returned (deref h l); store := h; trace := [] |}.

(** [l + extra]: a new list object; [l] is left as it is. *)
Definition list_add (l : loc) (extra : list Message) : Gen loc :=
  fun h =>
    {| outcome := Returned (List.length h);
       store := h ++ [deref h l ++ extra];
       trace := [] |}.

(** [l += extra]: on a list this extends the object [l] names, and the
    name keeps naming that object. *)
Definition list_iadd (l : loc) (extra : list Message) : Gen loc :=
  fun h =>
    {| outcome := Returned l;
       store := alter (fun items => items ++ extra) l h;
       trace := [] |}.

Definition yield (value : loc * string * string) : Gen unit :=
  fun h => {| outcome := Returned tt; store := h; trace := [Yield h value] |}.

(** [xs[0]] *)
Definition index0 {A} (xs : list A) : Gen A :=
  match xs with
  | [] => raise IndexError
  | x :: _ => ret x
  end.

(** Opening a stream: the call is made, and it raises or hands back the
    stream. *)
Definition open_stream {C} (call : Event) (reply : Reply C) : Gen (Stream C) :=
  fun h =>
    {| outcome := match reply with
                  | inl e => Raised e
                  | inr s => Returned s
                  end;
       store := h;
       trace := [call] |}.

Definition openai_chat_completions_create (be : Backends)
    (req : OpenAIRequest) : Gen (Stream GptChunk) :=
  open_stream (CallOpenAI req) (openai_reply be req).

Definition anthropic_messages_stream (be : Backends)
    (req : AnthropicRequest) : Gen (Stream ClaudeChunk) :=
  open_stream (CallAnthropic req) (anthropic_reply be req).

Definition ollama_chat (be : Backends)
    (req : OllamaRequest) : Gen (Stream LlamaChunk) :=
  open_stream (CallOllama req) (ollama_reply be req).

(** [for chunk in stream: body], the variables the body assigns threaded
    through as [acc]; when the chunks are exhausted the stream ends or
    raises. *)
Fixpoint for_each {C S} (cs : list C) (body : C -> S -> Gen S) (acc : S)
  : Gen S :=
  match cs with
  | [] => ret acc
  | c :: cs' => let! acc' := body c acc in for_each cs' body acc'
  end.

Definition for_in {C S} (s : Stream C) (body : C -> S -> Gen S) (acc : S)
  : Gen S :=
  let! acc' := for_each (chunks s) body acc in
  match failure s with
  | None => ret acc'
  | Some e => raise e
  end.

(** ** Model handlers *)

Definition chat_gpt_answer_stream (be : Backends) (code question : string)
    (history : loc) : Gen unit :=
  let messages := [system_msg SYSTEM_PROMPT] in
  let! items := list_items history in
  let messages :=
    messages
    ++ map (fun msg => {| role := role msg; content := content msg |}) items in
  let user_content := "" in
  let user_content :=
    if truthy code
    then user_content +:+ ("Please explain this code:" +:+ nl +:+ nl
                           +:+ "```python" +:+ nl +:+ strip code +:+ nl
                           +:+ "```" +:+ nl +:+ nl)
    else user_content in
  let user_content :=
    if truthy question then user_content +:+ strip question
    else user_content in
  let messages :=
    if truthy user_content then messages ++ [user_msg user_content]
    else messages in
  let response_text := "" in
  try_except
    (let! stream :=
       openai_chat_completions_create be
         {| oa_model := GPT_MODEL; oa_messages := messages;
            oa_temperature := 0.4%Q; oa_stream := true |} in
     let! _ :=
       for_in stream
         (fun chunk response_text =>
            let! choice := index0 (choices chunk) in
            match choice with
            | Some text =>
                if truthy text then
                  let response_text := response_text +:+ text in
                  let! new_history :=
                    list_add history
                      [user_msg user_content; assistant_msg response_text] in
                  let! _ := yield (new_history, "", "") in
                  ret response_text
                else ret response_text
            | None => ret response_text
            end)
         response_text in
     ret tt)
    (fun e =>
       let error_msg := "GPT Error: " +:+ str e in
       let! new_history :=
         list_add history [user_msg user_content; assistant_msg error_msg] in
       yield (new_history, "", "")).

Definition chat_claude_answer_stream (be : Backends) (code question : string)
    (history : loc) : Gen unit :=
  let messages := [] in
  let! items := list_items history in
  let messages :=
    messages
    ++ map (fun msg => {| role := role msg; content := content msg |}) items in
  let user_content := "" in
  let user_content :=
    if truthy code
    then user_content +:+ ("Please explain this code:" +:+ nl +:+ nl
                           +:+ "```python" +:+ nl +:+ strip code +:+ nl
                           +:+ "```" +:+ nl +:+ nl)
    else user_content in
  let user_content :=
    if truthy question then user_content +:+ strip question
    else user_content in
  let messages :=
    if truthy user_content then messages ++ [user_msg user_content]
    else messages in
  let response_text := "" in
  try_except
    (let! stream :=
       anthropic_messages_stream be
         {| an_model := CLAUDE_MODEL; an_max_tokens := 1024;
            an_temperature := 0.4%Q; an_system := SYSTEM_PROMPT;
            an_messages := messages |} in
     let! _ :=
       for_in stream
         (fun chunk response_text =>
            if String.eqb (type chunk) "content_block_delta" then
              match delta_text chunk with
              | Some text =>
                  let response_text := response_text +:+ text in
                  let! new_history :=
                    list_add history
                      [user_msg user_content; assistant_msg response_text] in
                  let! _ := yield (new_history, "", "") in
                  ret response_text
              | None => ret response_text
              end
            else ret response_text)
         response_text in
     ret tt)
    (fun e =>
       let error_msg := "Claude Error: " +:+ str e in
       let! new_history :=
         list_add history [user_msg user_content; assistant_msg error_msg] in
       yield (new_history, "", "")).

Definition chat_llama_answer_stream (be : Backends) (code question : string)
    (history : loc) : Gen unit :=
  let messages := [system_msg SYSTEM_PROMPT] in
  let! items := list_items history in
  let messages :=
    messages
    ++ map (fun msg => {| role := role msg; content := content msg |}) items in
  let user_content := "" in
  let user_content :=
    if truthy code
    then user_content +:+ ("Please explain this code:" +:+ nl +:+ nl
                           +:+ "```python" +:+ nl +:+ strip code +:+ nl
                           +:+ "```" +:+ nl +:+ nl)
    else user_content in
  let user_content :=
    if truthy question then user_content +:+ strip question
    else user_content in
  let messages :=
    if truthy user_content then messages ++ [user_msg user_content]
    else messages in
  let response_text := "" in
  try_except
    (let! stream :=
       ollama_chat be
         {| ol_model := LLAMA_MODEL; ol_messages := messages;
            ol_stream := true |} in
     let! _ :=
       for_in stream
         (fun chunk response_text =>
            match message chunk with
            | Some (Some text) =>
                let response_text := response_text +:+ text in
                let! new_history :=
                  list_add history
                    [user_msg user_content; assistant_msg response_text] in
                let! _ := yield (new_history, "", "") in
                ret response_text
            | _ => ret response_text
            end)
         response_text in
     ret tt)
    (fun e =>
       let error_msg := "Llama Error: " +:+ str e in
       let! new_history :=
         list_add history [user_msg user_content; assistant_msg error_msg] in
       yield (new_history, "", "")).

(** ** Router *)

Definition chat_router (be : Backends) (code question : string)
    (history : loc) (model_name : string) : Gen unit :=
  if String.eqb model_name "GPT" then
    chat_gpt_answer_stream be code question history
  else if String.eqb model_name "Claude" then
    chat_claude_answer_stream be code question history
  else if String.eqb model_name "Llama" then
    chat_llama_answer_stream be code question history
  else
    let! history :=
      list_iadd history [assistant_msg "Unknown model selected."] in
    yield (history, "", "").

(** * Reading a run

    What the caller of a generator observes: the yielded triples, the
    conversation each of them shows at the moment it is yielded, and the
    calls made to the backends. *)

Definition yielded_value (ev : Event) : option (loc * string * string) :=
  match ev with
  | Yield _ v => Some v
  | _ => None
  end.

Definition snapshot_of (ev : Event) : option (list Message) :=
  match ev with
  | Yield seen (l, _, _) => Some (deref seen l)
  | _ => None
  end.

Definition backend_call (ev : Event) : option Event :=
  match ev with
  | Yield _ _ => None
  | call => Some call
  end.

Definition outputs (t : list Event) : list (loc * string * string) :=
  omap yielded_value t.

Definition snapshots (t : list Event) : list (list Message) :=
  omap snapshot_of t.

Definition calls (t : list Event) : list Event :=
  omap backend_call t.

(** The body of the last Turn of the last snapshot. *)
Definition final_body (t : list Event) : option string :=
  snap ← last (snapshots t); content <$> last snap.

(** A yielded list object still holds, in store [h], what it showed when
    it was yielded. *)
Definition unaltered_in (h : Heap) (ev : Event) : Prop :=
  match ev with
  | Yield seen (l, _, _) => deref h l = deref seen l
  | _ => True
  end.

(** * The handlers, read chunk by chunk

    The three handlers differ in how they read a chunk, in the request
    they build and in the name that prefixes an error.  [Delta] is what
    the guard of a loop body makes of one chunk: a text to append and
    show, nothing, or an exception raised by the guard itself. *)

Inductive Delta :=
| Text (t : string)
| Skip
| Broken (e : Exception).

(** Line 147: [if chunk.choices[0].delta.content:] *)
Definition gpt_delta (chunk : GptChunk) : Delta :=
  match choices chunk with
  | [] => Broken IndexError
  | Some t :: _ => if truthy t then Text t else Skip
  | None :: _ => Skip
  end.

(** Line 199: [chunk.type == "content_block_delta" and
    hasattr(chunk.delta, 'text')] *)
Definition claude_delta (chunk : ClaudeChunk) : Delta :=
  if String.eqb (type chunk) "content_block_delta" then
    match delta_text chunk with
    | Some t => Text t
    | None => Skip
    end
  else Skip.

(** Line 251: ["message" in chunk and "content" in chunk["message"]] *)
Definition llama_delta (chunk : LlamaChunk) : Delta :=
  match message chunk with
  | Some (Some t) => Text t
  | _ => Skip
  end.

(** The text deltas appended before the first chunk whose guard raises,
    and that exception. *)
Fixpoint scan (ds : list Delta) : list string * option Exception :=
  match ds with
  | [] => ([], None)
  | Text t :: ds' => let '(ts, err) := scan ds' in (t :: ts, err)
  | Skip :: ds' => scan ds'
  | Broken e :: _ => ([], Some e)
  end.

(** What a handler gets out of a reply: the fragments it appends, in
    order, and the exception that ends the loop, if one does. *)
Definition consume {C} (classify : C -> Delta) (reply : Reply C)
  : list string * option Exception :=
  match reply with
  | inl e => ([], Some e)
  | inr s =>
      let '(ts, err) := scan (map classify (chunks s)) in
      (ts, match err with
           | Some e => Some e
           | None => failure s
           end)
  end.

Fixpoint join (ts : list string) : string :=
  match ts with
  | [] => ""
  | t :: ts' => t +:+ join ts'
  end.

(** The values [response_text] takes, one per appended fragment. *)
Fixpoint running (acc : string) (ts : list string) : list string :=
  match ts with
  | [] => []
  | t :: ts' => (acc +:+ t) :: running (acc +:+ t) ts'
  end.

(** The events of yielding, one after the other, freshly built lists
    [snaps] from store [h]. *)
Fixpoint yields (h : Heap) (snaps : list (list Message)) : list Event :=
  match snaps with
  | [] => []
  | s :: snaps' =>
      Yield (h ++ [s]) (List.length h, "", "") :: yields (h ++ [s]) snaps'
  end.

(** The value of [user_content] after lines 128-132 (and 180-184,
    233-237). *)
Definition user_content_of (code question : string) : string :=
  let user_content := "" in
  let user_content :=
    if truthy code
    then user_content +:+ ("Please explain this code:" +:+ nl +:+ nl
                           +:+ "```python" +:+ nl +:+ strip code +:+ nl
                           +:+ "```" +:+ nl +:+ nl)
    else user_content in
  let user_content :=
    if truthy question then user_content +:+ strip question
    else user_content in
  user_content.

(** The message the handlers append for this turn (lines 134-135). *)
Definition user_part (uc : string) : list Message :=
  if truthy uc then [user_msg uc] else [].

Inductive Model := GPT | Claude | Llama.

Definition model_of (model_name : string) : option Model :=
  if String.eqb model_name "GPT" then Some GPT
  else if String.eqb model_name "Claude" then Some Claude
  else if String.eqb model_name "Llama" then Some Llama
  else None.

Definition error_label (m : Model) : string :=
  match m with
  | GPT => "GPT Error: "
  | Claude => "Claude Error: "
  | Llama => "Llama Error: "
  end.

Definition gpt_request (code question : string) (hist : list Message)
  : OpenAIRequest :=
  {| oa_model := GPT_MODEL;
     oa_messages := system_msg SYSTEM_PROMPT :: hist
                    ++ user_part (user_content_of code question);
     oa_temperature := 0.4%Q;
     oa_stream := true |}.

Definition claude_request (code question : string) (hist : list Message)
  : AnthropicRequest :=
  {| an_model := CLAUDE_MODEL;
     an_max_tokens := 1024;
     an_temperature := 0.4%Q;
     an_system := SYSTEM_PROMPT;
     an_messages := hist ++ user_part (user_content_of code question) |}.

Definition llama_request (code question : string) (hist : list Message)
  : OllamaRequest :=
  {| ol_model := LLAMA_MODEL;
     ol_messages := system_msg SYSTEM_PROMPT :: hist
                    ++ user_part (user_content_of code question);
     ol_stream := true |}.

(** The call the handler of model [m] makes. *)
Definition call_of (m : Model) (code question : string) (hist : list Message)
  : Event :=
  match m with
  | GPT => CallOpenAI (gpt_request code question hist)
  | Claude => CallAnthropic (claude_request code question hist)
  | Llama => CallOllama (llama_request code question hist)
  end.

(** What the handler of model [m] gets out of the backend's answer to
    that call. *)
Definition consumed (be : Backends) (m : Model) (code question : string)
    (hist : list Message) : list string * option Exception :=
  match m with
  | GPT =>
      consume gpt_delta (openai_reply be (gpt_request code question hist))
  | Claude =>
      consume claude_delta
        (anthropic_reply be (claude_request code question hist))
  | Llama =>
      consume llama_delta (ollama_reply be (llama_request code question hist))
  end.

(** The conversation a handler builds at lines 149-152 and 157-160. *)
Definition turn_pair (hist : list Message) (uc body : string)
  : list Message :=
  hist ++ [user_msg uc; assistant_msg body].

(** The lists a handler builds in a run: one per fragment, then one for
    the error if the loop ended with one. *)
Definition built (label : string) (hist : list Message) (uc : string)
    (got : list string * option Exception) : list (list Message) :=
  map (turn_pair hist uc) (running "" (fst got))
  ++ match snd got with
     | Some e => [turn_pair hist uc (label +:+ str e)]
     | None => []
     end.

(** The body the three loops share, once the guard has read the chunk
    (lines 148-153, 200-205, 252-257). *)
Definition step (history : loc) (uc : string) (d : Delta)
    (response_text : string) : Gen string :=
  match d with
  | Broken e => raise e
  | Skip => ret response_text
  | Text t =>
      let response_text := response_text +:+ t in
      let! new_history :=
        list_add history [user_msg uc; assistant_msg response_text] in
      let! _ := yield (new_history, "", "") in
      ret response_text
  end.

(** The run of the handler of model [m] from store [h], where the
    history holds [hist]: it makes its call, then builds and yields one
    list after the other. *)
Definition handler_run (be : Backends) (m : Model) (code question : string)
    (hist : list Message) (h : Heap) : Run unit :=
  let snaps :=
    built (error_label m) hist (user_content_of code question)
      (consumed be m code question hist) in
  {| outcome := Returned tt;
     store := h ++ snaps;
     trace := call_of m code question hist :: yields h snaps |}.

(** The message list a call carries. *)
Definition request_messages (call : Event) : list Message :=
  match call with
  | CallOpenAI req => oa_messages req
  | CallAnthropic req => an_messages req
  | CallOllama req => ol_messages req
  | Yield _ _ => []
  end.

(** The messages a handler puts in front of the history (lines 123, 176
    and 228). *)
Definition system_part (m : Model) : list Message :=
  match m with
  | GPT | Llama => [system_msg SYSTEM_PROMPT]
  | Claude => []
  end.

(** The text delta a chunk carries, if it carries one: what each guard
    looks at. *)
Definition gpt_text (chunk : GptChunk) : option string :=
  match choices chunk with
  | [] => None
  | choice :: _ => choice
  end.

Definition claude_text (chunk : ClaudeChunk) : option string :=
  if String.eqb (type chunk) "content_block_delta" then delta_text chunk
  else None.

Definition llama_text (chunk : LlamaChunk) : option string :=
  match message chunk with
  | Some text => text
  | None => None
  end.

(** The snapshots that show, one after the other, the running
    concatenation of fragments [ts]. *)
Definition growing (hist : list Message) (uc : string) (ts : list string)
  : list (list Message) :=
  map (fun k => turn_pair hist uc (join (take k ts)))
    (seq 1 (List.length ts)).

(** ** The parts of the user content

    The fence line 130 writes around the code, with its language tag. *)
Definition fenced (body : string) : string :=
  "```python" +:+ nl +:+ body +:+ nl +:+ "```".

(** [t] is [s] trimmed: [t] is [s] without a blank prefix and a blank
    suffix, and [t] itself neither starts nor ends with a space. *)
Definition trimmed_from (s t : string) : Prop :=
  (exists pre post,
      s = pre +:+ t +:+ post /\ blank pre = true /\ blank post = true)
  /\ starts_with_space t = false
  /\ ends_with_space t = false.

(** The claim that the user content [uc] has, as a prefix, a fenced
    block that holds the trimmed code: the opening fence with whatever
    tag, the trimmed code on the lines below, the closing fence. *)
Definition fenced_block_first (code uc : string) : Prop :=
  exists tag rest,
    uc = "```" +:+ tag +:+ nl +:+ strip code +:+ nl +:+ "```" +:+ rest.

(** The claim that a request with nothing in it is a no-op: no call, and
    nothing shown but the conversation as it was. *)
Definition no_op (hist : list Message) (r : Run unit) : Prop :=
  calls (trace r) = []
  /\ Forall (fun snap => snap = hist) (snapshots (trace r)).

(** ** Sample backends *)

Definition boom : Exception := {| str := "boom" |}.

(** Every service streams ["Sure"] and [", this prints hi"], with a chunk
    that carries no text before them and an empty text between them. *)
Definition answering : Backends :=
  {| openai_reply := fun _ =>
       inr {| chunks := [ {| choices := [None] |};
                          {| choices := [Some "Sure"] |};
                          {| choices := [Some ""] |};
                          {| choices := [Some ", this prints hi"] |} ];
              failure := None |};
     anthropic_reply := fun _ =>
       inr {| chunks := [ {| type := "message_start"; delta_text := None |};
                          {| type := "content_block_delta";
                             delta_text := Some "Sure" |};
                          {| type := "content_block_delta";
                             delta_text := Some "" |};
                          {| type := "content_block_delta";
                             delta_text := Some ", this prints hi" |} ];
              failure := None |};
     ollama_reply := fun _ =>
       inr {| chunks := [ {| message := None |};
                          {| message := Some (Some "Sure") |};
                          {| message := Some (Some "") |};
                          {| message := Some (Some ", this prints hi") |} ];
              failure := None |} |}.

(** Every service streams ["Sure"] and then fails. *)
Definition failing : Backends :=
  {| openai_reply := fun _ =>
       inr {| chunks := [ {| choices := [Some "Sure"] |} ];
              failure := Some boom |};
     anthropic_reply := fun _ =>
       inr {| chunks := [ {| type := "content_block_delta";
                             delta_text := Some "Sure" |} ];
              failure := Some boom |};
     ollama_reply := fun _ =>
       inr {| chunks := [ {| message := Some (Some "Sure") |} ];
              failure := Some boom |} |}.

(** The chunks of the first backend that are read: those before the
    first chunk whose [choices] list is empty, where line 147 raises. *)
Fixpoint read_chunks (cs : list GptChunk) : list GptChunk :=
  match cs with
  | [] => []
  | c :: cs' =>
      match choices c with
      | [] => []
      | _ :: _ => c :: read_chunks cs'
      end
  end.

(** How the reading of a stream of the first backend ends: with the
    index error if some chunk has no choice, else as the stream ends. *)
Definition gpt_reading_end (cs : list GptChunk) (ending : option Exception)
  : option Exception :=
  if existsb (fun c => match choices c with
                       | [] => true
                       | _ :: _ => false
                       end) cs
  then Some IndexError
  else ending.

(** The snapshot an [except] clause yields, if the reading ended with an
    exception (lines 156-161, 208-213, 260-265). *)
Definition error_snapshot (label : string) (hist : list Message)
    (uc : string) (err : option Exception) : list (list Message) :=
  match err with
  | Some e => [hist ++ [user_msg uc; assistant_msg (label +:+ str e)]]
  | None => []
  end.

(** The claim that a snapshot is emitted only for a non-empty text
    delta, for a stream of chunks whose text deltas are [texts]. *)
Definition one_per_nonempty_text (texts : list (option string))
    (r : Run unit) : Prop :=
  List.length (snapshots (trace r))
  = List.length (List.filter truthy (omap id texts)).


(** ** Start-up and the rest of the interface

    [key[:n]], the slice that keeps the first [n] characters of a string
    and all of a shorter one. *)
Fixpoint prefix (n : nat) (s : string) : string :=
  match n, s with
  | S n', String c s' => String c (prefix n' s')
  | _, _ => EmptyString
  end.

(** Lines 34-37: the line printed for the first key; [os.getenv] gives
    [None] or a string. *)
Definition openai_key_message (openai_api_key : option string) : string :=
  match openai_api_key with
  | Some key =>
      if truthy key
      then "OpenAI API Key loaded (begins with: " +:+ prefix 8 key +:+ ")"
      else "WARNING: OpenAI API Key not set"
  | None => "WARNING: OpenAI API Key not set"
  end.

(** Lines 39-42: the line printed for the second key. *)
Definition anthropic_key_message (anthropic_api_key : option string)
  : string :=
  match anthropic_api_key with
  | Some key =>
      if truthy key
      then "Anthropic API Key loaded (begins with: " +:+ prefix 7 key +:+ ")"
      else "WARNING: Anthropic API Key not set"
  | None => "WARNING: Anthropic API Key not set"
  end.

(** [[]]: a new, empty list object. *)
Definition list_new : Gen loc :=
  fun h =>
    {| outcome := Returned (List.length h); store := h ++ [[]]; trace := [] |}.

(** Lines 352-353, the function of the clear button:
    [lambda: ([], "", "")]. *)
Definition clear_click : Gen (loc * string * string) :=
  let! chatbot := list_new in
  ret (chatbot, "", "").

(** The reference a yielded value carries. *)
Definition shown_list (v : loc * string * string) : loc := fst (fst v).

(** Every service refuses the call. *)
Definition refusing : Backends :=
  {| openai_reply := fun _ => inl boom;
     anthropic_reply := fun _ => inl boom;
     ollama_reply := fun _ => inl boom |}.

(** Every service ends its stream after chunks that carry no text to
    append. *)
Definition silent : Backends :=
  {| openai_reply := fun _ =>
       inr {| chunks := [ {| choices := [None] |};
                          {| choices := [Some ""] |} ];
              failure := None |};
     anthropic_reply := fun _ =>
       inr {| chunks := [ {| type := "message_start"; delta_text := None |};
                          {| type := "message_stop"; delta_text := None |} ];
              failure := None |};
     ollama_reply := fun _ =>
       inr {| chunks := [ {| message := None |};
                          {| message := Some None |} ];
              failure := None |} |}.

(** The first service sends ["Sure"], then a chunk with no choice in
    it, then more text. *)
Definition malformed : Backends :=
  {| openai_reply := fun _ =>
       inr {| chunks := [ {| choices := [Some "Sure"] |} ]
                        ++ {| choices := [] |}
                        :: [ {| choices := [Some " thing"] |} ];
              failure := None |};
     anthropic_reply := fun _ => inl boom;
     ollama_reply := fun _ => inl boom |}.

(** * Strings *)

Lemma append_nil_r (s : string) : s +:+ "" = s.
Proof.
  induction s as [|c s IH]; [reflexivity|].
  change (String c (s +:+ "") = String c s). now rewrite IH.
Qed.

Lemma append_nil_l (s : string) : "" +:+ s = s.
Proof. reflexivity. Qed.

Lemma append_assoc (s t u : string) : (s +:+ t) +:+ u = s +:+ (t +:+ u).
Proof.
  induction s as [|c s IH]; [reflexivity|].
  change (String c ((s +:+ t) +:+ u) = String c (s +:+ (t +:+ u))).
  now rewrite IH.
Qed.

Lemma truthy_false (s : string) : truthy s = false <-> s = "".
Proof. destruct s; simpl; split; congruence. Qed.

Lemma truthy_true (s : string) : truthy s = true <-> s <> "".
Proof. destruct s; simpl; split; congruence. Qed.

Lemma join_app (ts us : list string) : join (ts ++ us) = join ts +:+ join us.
Proof.
  induction ts as [|t ts IH]; simpl; [reflexivity|].
  now rewrite IH, append_assoc.
Qed.

Lemma running_length (acc : string) (ts : list string) :
  List.length (running acc ts) = List.length ts.
Proof.
  revert acc; induction ts as [|t ts IH]; intros acc; simpl;
    [reflexivity | now rewrite IH].
Qed.

Lemma running_lookup (ts : list string) (acc : string) (k : nat) :
  k < List.length ts ->
  running acc ts !! k = Some (acc +:+ join (take (S k) ts)).
Proof.
  revert acc k; induction ts as [|t ts IH]; intros acc k Hk; simpl in Hk.
  - lia.
  - destruct k as [|k]; simpl.
    + now rewrite append_nil_r.
    + rewrite IH by lia. simpl. now rewrite append_assoc.
Qed.

Lemma running_seq (ts : list string) (acc : string) :
  running acc ts
  = map (fun k => acc +:+ join (take k ts)) (seq 1 (List.length ts)).
Proof.
  revert acc; induction ts as [|t ts IH]; intros acc; [reflexivity|].
  cbn [running List.length seq map]. f_equal.
  - simpl. now rewrite append_nil_r.
  - rewrite <- (seq_shift (List.length ts) 1), map_map, IH.
    apply map_ext; intros k. simpl. now rewrite append_assoc.
Qed.

Lemma running_last (ts : list string) (acc : string) :
  ts <> [] -> last (running acc ts) = Some (acc +:+ join ts).
Proof.
  revert acc; induction ts as [|t ts IH]; intros acc Hne; [congruence|].
  destruct ts as [|u ts].
  - simpl. now rewrite append_nil_r.
  - change (running acc (t :: u :: ts))
      with ((acc +:+ t) :: running (acc +:+ t) (u :: ts)).
    rewrite last_cons, IH by congruence.
    simpl. now rewrite !append_assoc.
Qed.

(** * The store *)

Lemma copy_items (items : list Message) :
  map (fun msg => {| role := role msg; content := content msg |}) items
  = items.
Proof.
  induction items as [|[r c] items IH]; simpl; [reflexivity | now rewrite IH].
Qed.

Lemma deref_lookup (h : Heap) (l : loc) (items : list Message) :
  h !! l = Some items -> deref h l = items.
Proof. intros H; unfold deref; now rewrite H. Qed.

Lemma deref_app (h h' : Heap) (l : loc) (items : list Message) :
  h !! l = Some items -> deref (h ++ h') l = items.
Proof.
  intros H; apply deref_lookup. now apply lookup_app_l_Some.
Qed.

Lemma deref_fresh (h h' : Heap) (s : list Message) :
  deref (h ++ s :: h') (List.length h) = s.
Proof. apply deref_lookup. now apply list_lookup_middle. Qed.

(** * The loops *)

Lemma gpt_body_step (history : loc) (uc : string) (chunk : GptChunk)
    (response_text : string) (h : Heap) :
  (let! choice := index0 (choices chunk) in
   match choice with
   | Some text =>
       if truthy text then
         let response_text := response_text +:+ text in
         let! new_history :=
           list_add history [user_msg uc; assistant_msg response_text] in
         let! _ := yield (new_history, "", "") in
         ret response_text
       else ret response_text
   | None => ret response_text
   end) h
  = step history uc (gpt_delta chunk) response_text h.
Proof.
  unfold gpt_delta. destruct (choices chunk) as [|[text|] rest]; try reflexivity.
  destruct text; reflexivity.
Qed.

Lemma claude_body_step (history : loc) (uc : string) (chunk : ClaudeChunk)
    (response_text : string) (h : Heap) :
  (if String.eqb (type chunk) "content_block_delta" then
     match delta_text chunk with
     | Some text =>
         let response_text := response_text +:+ text in
         let! new_history :=
           list_add history [user_msg uc; assistant_msg response_text] in
         let! _ := yield (new_history, "", "") in
         ret response_text
     | None => ret response_text
     end
   else ret response_text) h
  = step history uc (claude_delta chunk) response_text h.
Proof.
  unfold claude_delta.
  destruct (String.eqb _ _); [|reflexivity].
  destruct (delta_text chunk); reflexivity.
Qed.

Lemma llama_body_step (history : loc) (uc : string) (chunk : LlamaChunk)
    (response_text : string) (h : Heap) :
  match message chunk with
  | Some (Some text) =>
      let response_text := response_text +:+ text in
      let! new_history :=
        list_add history [user_msg uc; assistant_msg response_text] in
      let! _ := yield (new_history, "", "") in
      ret response_text
  | _ => ret response_text
  end h
  = step history uc (llama_delta chunk) response_text h.
Proof.
  unfold llama_delta. destruct (message chunk) as [[text|]|]; reflexivity.
Qed.

Section Loop.
Context {C : Type} (classify : C -> Delta) (body : C -> string -> Gen string).
Context (history : loc) (uc : string) (hist : list Message).
Hypothesis body_step :
  forall c acc h, body c acc h = step history uc (classify c) acc h.

Lemma for_each_run (cs : list C) (acc : string) (h : Heap) :
  h !! history = Some hist ->
  for_each cs body acc h
  = let got := scan (map classify cs) in
    let snaps := map (turn_pair hist uc) (running acc (fst got)) in
    {| outcome := match snd got with
                  | None => Returned (acc +:+ join (fst got))
                  | Some e => Raised e
                  end;
       store := h ++ snaps;
       trace := yields h snaps |}.
Proof.
  revert acc h; induction cs as [|c cs IH]; intros acc h Hh.
  - simpl. unfold ret. now rewrite append_nil_r, app_nil_r.
  - cbn [for_each map scan]. unfold bind at 1. rewrite body_step.
    destruct (classify c) as [t| |e].
    + cbn -[yields running scan].
      rewrite (deref_lookup _ _ _ Hh).
      rewrite IH by now apply lookup_app_l_Some.
      destruct (scan (map classify cs)) as [ts err].
      cbn [fst snd running map yields]. unfold turn_pair at 3 5.
      rewrite <- !app_assoc, append_assoc. reflexivity.
    + cbn -[yields running scan]. rewrite IH by assumption.
      destruct (scan (map classify cs)) as [ts err]. reflexivity.
    + cbn. now rewrite app_nil_r.
Qed.
End Loop.

(** * The handlers *)

Lemma yields_app (h : Heap) (s1 s2 : list (list Message)) :
  yields h (s1 ++ s2) = yields h s1 ++ yields (h ++ s1) s2.
Proof.
  revert h; induction s1 as [|s s1 IH]; intros h; simpl.
  - now rewrite app_nil_r.
  - rewrite IH, <- app_assoc. reflexivity.
Qed.

Section Handler.
Context {C : Type} (classify : C -> Delta) (body : C -> string -> Gen string).
Context (label : string) (history : loc) (uc : string) (hist : list Message).
Hypothesis body_step :
  forall c acc h, body c acc h = step history uc (classify c) acc h.

Lemma for_in_run (s : Stream C) (h : Heap) :
  h !! history = Some hist ->
  for_in s body "" h
  = let got := consume classify (inr s) in
    let snaps := map (turn_pair hist uc) (running "" (fst got)) in
    {| outcome := match snd got with
                  | None => Returned (join (fst got))
                  | Some e => Raised e
                  end;
       store := h ++ snaps;
       trace := yields h snaps |}.
Proof.
  intros Hh. unfold for_in, bind, consume.
  rewrite (for_each_run classify body history uc hist body_step) by exact Hh.
  cbn zeta.
  destruct (scan (map classify (chunks s))) as [ts [e|]];
    cbn [fst snd outcome store trace]; [reflexivity|].
  destruct (failure s) as [e|]; cbn; now rewrite app_nil_r.
Qed.

(** The [try] statement of a handler, from the call to the [except]
    clause. *)
Lemma try_run (call : Event) (reply : Reply C) (h : Heap) :
  h !! history = Some hist ->
  try_except
    (let! stream := open_stream call reply in
     let! _ := for_in stream body "" in
     ret tt)
    (fun e =>
       let error_msg := label +:+ str e in
       let! new_history :=
         list_add history [user_msg uc; assistant_msg error_msg] in
       yield (new_history, "", "")) h
  = let snaps := built label hist uc (consume classify reply) in
    {| outcome := Returned tt;
       store := h ++ snaps;
       trace := call :: yields h snaps |}.
Proof.
  intros Hh. unfold try_except, built.
  destruct reply as [e|s].
  - cbn. rewrite (deref_lookup _ _ _ Hh). reflexivity.
  - unfold bind. cbn [open_stream outcome store trace].
    rewrite (for_in_run s h Hh). cbn zeta.
    destruct (consume classify (inr s)) as [ts [e|]];
      cbn [fst snd outcome store trace].
    + cbn -[yields running]. rewrite yields_app. cbn [yields].
      rewrite (deref_app _ _ _ _ Hh), <- !app_assoc. reflexivity.
    + cbn -[yields running]. now rewrite !app_nil_r.
Qed.
End Handler.

Lemma with_user_part (base : list Message) (uc : string) :
  (if truthy uc then base ++ [user_msg uc] else base) = base ++ user_part uc.
Proof. unfold user_part. destruct (truthy uc); now rewrite ?app_nil_r. Qed.

Section Runs.
Context (be : Backends) (code question : string) (history : loc).
Context (h : Heap) (hist : list Message).
Hypothesis history_holds : h !! history = Some hist.

Lemma gpt_run :
  chat_gpt_answer_stream be code question history h
  = handler_run be GPT code question hist h.
Proof.
  unfold chat_gpt_answer_stream. unfold bind at 1.
  cbn [list_items outcome store trace].
  rewrite (deref_lookup _ _ _ history_holds), copy_items.
  fold (user_content_of code question).
  rewrite with_user_part. unfold openai_chat_completions_create.
  rewrite (try_run gpt_delta _ "GPT Error: " history _ hist
             (gpt_body_step history _) _ _ h history_holds).
  reflexivity.
Qed.

Lemma claude_run :
  chat_claude_answer_stream be code question history h
  = handler_run be Claude code question hist h.
Proof.
  unfold chat_claude_answer_stream. unfold bind at 1.
  cbn [list_items outcome store trace].
  rewrite (deref_lookup _ _ _ history_holds), copy_items.
  fold (user_content_of code question).
  rewrite with_user_part. unfold anthropic_messages_stream.
  rewrite (try_run claude_delta _ "Claude Error: " history _ hist
             (claude_body_step history _) _ _ h history_holds).
  reflexivity.
Qed.

Lemma llama_run :
  chat_llama_answer_stream be code question history h
  = handler_run be Llama code question hist h.
Proof.
  unfold chat_llama_answer_stream. unfold bind at 1.
  cbn [list_items outcome store trace].
  rewrite (deref_lookup _ _ _ history_holds), copy_items.
  fold (user_content_of code question).
  rewrite with_user_part. unfold ollama_chat.
  rewrite (try_run llama_delta _ "Llama Error: " history _ hist
             (llama_body_step history _) _ _ h history_holds).
  reflexivity.
Qed.

(** The router with a model name it knows. *)
Lemma router_run (model_name : string) (m : Model) :
  model_of model_name = Some m ->
  chat_router be code question history model_name h
  = handler_run be m code question hist h.
Proof.
  unfold model_of, chat_router.
  destruct (String.eqb model_name "GPT");
    [intros [= <-]; apply gpt_run|].
  destruct (String.eqb model_name "Claude");
    [intros [= <-]; apply claude_run|].
  destruct (String.eqb model_name "Llama");
    [intros [= <-]; apply llama_run|].
  discriminate.
Qed.

(** The router with any other name. *)
Lemma router_unknown_run (model_name : string) :
  model_of model_name = None ->
  chat_router be code question history model_name h
  = let h' := alter (fun items =>
                       items ++ [assistant_msg "Unknown model selected."])
                history h in
    {| outcome := Returned tt;
       store := h';
       trace := [Yield h' (history, "", "")] |}.
Proof.
  unfold model_of, chat_router.
  destruct (String.eqb model_name "GPT"); [discriminate|].
  destruct (String.eqb model_name "Claude"); [discriminate|].
  destruct (String.eqb model_name "Llama"); [discriminate|].
  intros _. reflexivity.
Qed.

Lemma deref_extended (extra : list Message) :
  deref (alter (fun items => items ++ extra) history h) history
  = hist ++ extra.
Proof.
  apply deref_lookup. rewrite list_lookup_alter_eq, history_holds. reflexivity.
Qed.
End Runs.

(** * Reading the trace of a handler *)

Lemma outputs_yields (h : Heap) (snaps : list (list Message)) :
  outputs (yields h snaps)
  = map (fun i => (i, "", "")) (seq (List.length h) (List.length snaps)).
Proof.
  revert h; induction snaps as [|s snaps IH]; intros h; [reflexivity|].
  unfold outputs in *. simpl. rewrite IH, length_app. simpl.
  now replace (List.length h + 1) with (S (List.length h)) by lia.
Qed.

Lemma snapshots_yields (h : Heap) (snaps : list (list Message)) :
  snapshots (yields h snaps) = snaps.
Proof.
  revert h; induction snaps as [|s snaps IH]; intros h; [reflexivity|].
  unfold snapshots in *. simpl. rewrite IH. f_equal.
  apply (deref_fresh h [] s).
Qed.

Lemma calls_yields (h : Heap) (snaps : list (list Message)) :
  calls (yields h snaps) = [].
Proof.
  revert h; induction snaps as [|s snaps IH]; intros h; [reflexivity|].
  unfold calls in *. simpl. apply IH.
Qed.

Lemma yields_unaltered (h : Heap) (snaps rest : list (list Message)) :
  Forall (unaltered_in (h ++ snaps ++ rest)) (yields h snaps).
Proof.
  revert h rest; induction snaps as [|s snaps IH]; intros h rest;
    cbn [yields]; constructor.
  - cbn [unaltered_in]. cbn [app].
    now rewrite (deref_fresh h (snaps ++ rest) s), (deref_fresh h [] s).
  - specialize (IH (h ++ [s]) rest). now rewrite <- app_assoc in IH.
Qed.

Lemma handler_snapshots (be : Backends) (m : Model) (code question : string)
    (hist : list Message) (h : Heap) :
  snapshots (trace (handler_run be m code question hist h))
  = built (error_label m) hist (user_content_of code question)
      (consumed be m code question hist).
Proof.
  unfold handler_run. cbn [trace]. destruct m; apply snapshots_yields.
Qed.

Lemma handler_calls (be : Backends) (m : Model) (code question : string)
    (hist : list Message) (h : Heap) :
  calls (trace (handler_run be m code question hist h))
  = [call_of m code question hist].
Proof.
  unfold handler_run. cbn [trace].
  destruct m; unfold calls; simpl; f_equal; apply calls_yields.
Qed.

Lemma growing_running (hist : list Message) (uc : string) (ts : list string) :
  map (turn_pair hist uc) (running "" ts) = growing hist uc ts.
Proof. unfold growing. now rewrite running_seq, map_map. Qed.

Lemma built_growing (label : string) (hist : list Message) (uc : string)
    (ts : list string) (err : option Exception) :
  built label hist uc (ts, err)
  = growing hist uc ts
    ++ match err with
       | Some e => [turn_pair hist uc (label +:+ str e)]
       | None => []
       end.
Proof. unfold built. cbn [fst snd]. now rewrite growing_running. Qed.

Lemma last_map {A B} (f : A -> B) (l : list A) :
  last (map f l) = option_map f (last l).
Proof.
  induction l as [|a [|b l] IH]; try reflexivity.
  change (last (map f (b :: l)) = option_map f (last (b :: l))). exact IH.
Qed.

Lemma growing_last (hist : list Message) (uc : string) (ts : list string) :
  ts <> [] -> last (growing hist uc ts) = Some (turn_pair hist uc (join ts)).
Proof.
  intros Hne. rewrite <- growing_running, last_map.
  now rewrite (running_last ts "" Hne).
Qed.

Lemma handler_unaltered (be : Backends) (m : Model) (code question : string)
    (hist : list Message) (h : Heap) :
  let r := handler_run be m code question hist h in
  Forall (unaltered_in (store r)) (trace r).
Proof.
  unfold handler_run. cbn [store trace]. constructor.
  - destruct m; exact I.
  - specialize (yields_unaltered h
      (built (error_label m) hist (user_content_of code question)
         (consumed be m code question hist)) []).
    now rewrite app_nil_r.
Qed.

(** * Properties of the router *)

(** C1.  When the stream of a known backend is consumed without error,
    the snapshot emitted after fragment [k] is the input history, then
    one user Turn, then one assistant Turn whose body is the
    concatenation of fragments 1..k; there is one snapshot per fragment
    and nothing else is added, so the last snapshot shows the
    concatenation of all the fragments. *)
Theorem C1_snapshot_after_fragment_k (be : Backends) (code question : string)
    (history : loc) (model_name : string) (m : Model) (h : Heap)
    (hist : list Message) (frags : list string) :
  h !! history = Some hist ->
  model_of model_name = Some m ->
  consumed be m code question hist = (frags, None) ->
  let r := chat_router be code question history model_name h in
  let uc := user_content_of code question in
  snapshots (trace r)
  = map (fun k => hist ++ [user_msg uc; assistant_msg (join (take k frags))])
      (seq 1 (List.length frags))
  /\ (forall k, k < List.length frags ->
      snapshots (trace r) !! k
      = Some (hist ++ [user_msg uc;
                       assistant_msg (join (take (S k) frags))]))
  /\ (frags <> [] -> final_body (trace r) = Some (join frags)).
Proof.
  intros Hh Hm Hgot r uc. subst r.
  rewrite (router_run be code question history h hist Hh model_name m Hm).
  unfold final_body.
  rewrite handler_snapshots, Hgot, built_growing, app_nil_r.
  split; [reflexivity|]. split.
  - intros k Hk. rewrite <- growing_running.
    change (map (turn_pair hist uc) (running "" frags))
      with (turn_pair hist uc <$> running "" frags).
    now rewrite list_lookup_fmap, (running_lookup frags "" k Hk).
  - intros Hne. rewrite (growing_last _ _ _ Hne). cbn [mbind option_bind].
    unfold turn_pair. now rewrite last_app.
Qed.

Lemma C1_witness :
  ([[]] : Heap) !! 0 = Some []
  /\ model_of "GPT" = Some GPT
  /\ consumed answering GPT "print('hi')" "" []
     = (["Sure"; ", this prints hi"], None)
  /\ snapshots (trace (chat_router answering "print('hi')" "" 0 "GPT" [[]]))
     = map (fun k =>
              [] ++ [user_msg (user_content_of "print('hi')" "");
                     assistant_msg
                       (join (take k ["Sure"; ", this prints hi"]))])
         (seq 1 2)
  /\ (forall k, k < List.length ["Sure"; ", this prints hi"] ->
      snapshots (trace (chat_router answering "print('hi')" "" 0 "GPT" [[]]))
        !! k
      = Some ([] ++ [user_msg (user_content_of "print('hi')" "");
                     assistant_msg
                       (join (take (S k) ["Sure"; ", this prints hi"]))]))
  /\ (["Sure"; ", this prints hi"] <> [] ->
      final_body (trace (chat_router answering "print('hi')" "" 0 "GPT" [[]]))
      = Some (join ["Sure"; ", this prints hi"])).
Proof.
  split; [reflexivity|]. split; [reflexivity|]. split; [reflexivity|].
  apply (C1_snapshot_after_fragment_k answering "print('hi')" "" 0 "GPT" GPT
           [[]] [] ["Sure"; ", this prints hi"]); reflexivity.
Defined.

(** The scenario of the specification: the code [print('hi')] alone,
    the first backend, no history, the fragments ["Sure"] and
    [", this prints hi"]. *)
Example scenario_print_hi :
  final_body (trace (chat_router answering "print('hi')" "" 0 "GPT" [[]]))
  = Some "Sure, this prints hi".
Proof. reflexivity. Qed.

(** C2, as stated, fails: with empty code and empty question the first
    backend is still called, and Turns are appended. *)
Lemma C2_counterexample :
  let r := chat_router answering "" "" 0 "GPT" [[]] in
  calls (trace r) = [CallOpenAI (gpt_request "" "" [])]
  /\ snapshots (trace r)
     = [[user_msg ""; assistant_msg "Sure"];
        [user_msg ""; assistant_msg "Sure, this prints hi"]]
  /\ ~ no_op [] r.
Proof.
  split; [reflexivity|]. split; [reflexivity|].
  intros [Hcalls _]. vm_compute in Hcalls. discriminate Hcalls.
Qed.

(** C2, amended.  With empty code and empty question and a known backend
    name, the composed user content is empty and the request carries no
    message for this turn: its message list is the system part and the
    history.  The backend is called all the same, once, and every
    snapshot is the history, a user Turn with empty body and one
    assistant Turn. *)
Theorem C2_empty_inputs_still_call (be : Backends) (history : loc)
    (model_name : string) (m : Model) (h : Heap) (hist : list Message) :
  h !! history = Some hist ->
  model_of model_name = Some m ->
  let r := chat_router be "" "" history model_name h in
  user_content_of "" "" = ""
  /\ calls (trace r) = [call_of m "" "" hist]
  /\ request_messages (call_of m "" "" hist) = system_part m ++ hist
  /\ Forall (fun snap =>
               exists body,
                 snap = hist ++ [user_msg ""; assistant_msg body])
       (snapshots (trace r)).
Proof.
  intros Hh Hm r. subst r.
  rewrite (router_run be "" "" history h hist Hh model_name m Hm).
  rewrite handler_calls, handler_snapshots.
  split; [reflexivity|]. split; [reflexivity|]. split.
  - destruct m; cbn; now rewrite app_nil_r.
  - destruct (consumed be m "" "" hist) as [ts err].
    rewrite built_growing. apply Forall_app; split.
    + unfold growing. apply Forall_map, Forall_forall. intros k _.
      now eexists.
    + destruct err as [e|]; [|constructor].
      constructor; [|constructor]. now eexists.
Qed.

Lemma C2_witness :
  ([[]] : Heap) !! 0 = Some []
  /\ model_of "GPT" = Some GPT
  /\ user_content_of "" "" = ""
  /\ calls (trace (chat_router answering "" "" 0 "GPT" [[]]))
     = [call_of GPT "" "" []]
  /\ request_messages (call_of GPT "" "" []) = system_part GPT ++ []
  /\ Forall (fun snap =>
               exists body, snap = [] ++ [user_msg ""; assistant_msg body])
       (snapshots (trace (chat_router answering "" "" 0 "GPT" [[]]))).
Proof.
  split; [reflexivity|]. split; [reflexivity|].
  apply (C2_empty_inputs_still_call answering 0 "GPT" GPT [[]] []);
    reflexivity.
Defined.

(** C3, as stated, fails: when the stream fails after the fragment
    ["Sure"], the body of the last assistant Turn is the error label
    alone, not the fragment followed by the label. *)
Lemma C3_counterexample :
  let r := chat_router failing "" "hi" 0 "GPT" [[]] in
  consumed failing GPT "" "hi" [] = (["Sure"], Some boom)
  /\ final_body (trace r) = Some "GPT Error: boom"
  /\ final_body (trace r)
     <> Some (join ["Sure"] +:+ error_label GPT +:+ str boom).
Proof.
  split; [reflexivity|]. split; [reflexivity|].
  vm_compute. discriminate.
Qed.

(** C3, amended.  When the stream of a known backend fails with [e]
    after the fragments [frags], the snapshots are those of the
    fragments, one each, followed by exactly one more whose assistant
    Turn holds the error label of the backend and [str e], and nothing
    of the fragments; every list that was yielded still holds, when the
    run ends, what it showed when it was yielded. *)
Theorem C3_failure_after_fragments (be : Backends) (code question : string)
    (history : loc) (model_name : string) (m : Model) (h : Heap)
    (hist : list Message) (frags : list string) (e : Exception) :
  h !! history = Some hist ->
  model_of model_name = Some m ->
  consumed be m code question hist = (frags, Some e) ->
  let r := chat_router be code question history model_name h in
  let uc := user_content_of code question in
  snapshots (trace r)
  = growing hist uc frags
    ++ [hist ++ [user_msg uc; assistant_msg (error_label m +:+ str e)]]
  /\ final_body (trace r) = Some (error_label m +:+ str e)
  /\ Forall (unaltered_in (store r)) (trace r).
Proof.
  intros Hh Hm Hgot r uc. subst r.
  rewrite (router_run be code question history h hist Hh model_name m Hm).
  unfold final_body.
  rewrite handler_snapshots, Hgot, built_growing.
  split; [reflexivity|]. split.
  - rewrite last_snoc. cbn [mbind option_bind].
    unfold turn_pair. now rewrite last_app.
  - apply handler_unaltered.
Qed.

Lemma C3_witness :
  ([[]] : Heap) !! 0 = Some []
  /\ model_of "GPT" = Some GPT
  /\ consumed failing GPT "" "hi" [] = (["Sure"], Some boom)
  /\ snapshots (trace (chat_router failing "" "hi" 0 "GPT" [[]]))
     = growing [] (user_content_of "" "hi") ["Sure"]
       ++ [[] ++ [user_msg (user_content_of "" "hi");
                  assistant_msg (error_label GPT +:+ str boom)]]
  /\ final_body (trace (chat_router failing "" "hi" 0 "GPT" [[]]))
     = Some (error_label GPT +:+ str boom)
  /\ Forall (unaltered_in (store (chat_router failing "" "hi" 0 "GPT" [[]])))
       (trace (chat_router failing "" "hi" 0 "GPT" [[]])).
Proof.
  split; [reflexivity|]. split; [reflexivity|]. split; [reflexivity|].
  apply (C3_failure_after_fragments failing "" "hi" 0 "GPT" GPT [[]] []
           ["Sure"] boom); reflexivity.
Defined.

Lemma model_of_unknown (model_name : string) :
  model_name <> "GPT" -> model_name <> "Claude" -> model_name <> "Llama" ->
  model_of model_name = None.
Proof.
  intros H1 H2 H3. unfold model_of.
  apply String.eqb_neq in H1, H2, H3. now rewrite H1, H2, H3.
Qed.

(** C4.  With a backend name outside GPT, Claude and Llama, the router
    yields once; the conversation shown is the input history followed by
    one assistant Turn with body [Unknown model selected.], so no user
    Turn is appended; and no backend is called. *)
Theorem C4_unknown_model (be : Backends) (code question : string)
    (history : loc) (model_name : string) (h : Heap) (hist : list Message) :
  h !! history = Some hist ->
  model_name <> "GPT" -> model_name <> "Claude" -> model_name <> "Llama" ->
  let r := chat_router be code question history model_name h in
  snapshots (trace r) = [hist ++ [assistant_msg "Unknown model selected."]]
  /\ calls (trace r) = []
  /\ outcome r = Returned tt.
Proof.
  intros Hh H1 H2 H3 r. subst r.
  rewrite (router_unknown_run be code question history h model_name
             (model_of_unknown _ H1 H2 H3)).
  cbn. now rewrite (deref_extended history h hist Hh).
Qed.

Lemma C4_witness :
  ([[user_msg "old"]] : Heap) !! 0 = Some [user_msg "old"]
  /\ "Gemini" <> "GPT" /\ "Gemini" <> "Claude" /\ "Gemini" <> "Llama"
  /\ snapshots
       (trace (chat_router answering "x = 1" "why?" 0 "Gemini"
                 [[user_msg "old"]]))
     = [[user_msg "old"] ++ [assistant_msg "Unknown model selected."]]
  /\ calls
       (trace (chat_router answering "x = 1" "why?" 0 "Gemini"
                 [[user_msg "old"]])) = []
  /\ outcome (chat_router answering "x = 1" "why?" 0 "Gemini"
                [[user_msg "old"]]) = Returned tt.
Proof.
  split; [reflexivity|]. split; [discriminate|]. split; [discriminate|].
  split; [discriminate|].
  apply (C4_unknown_model answering "x = 1" "why?" 0 "Gemini"
           [[user_msg "old"]] [user_msg "old"]);
    [reflexivity | discriminate | discriminate | discriminate].
Defined.

(** A call that raises at once, a stream that raises after its chunks,
    and a chunk the guard cannot read all end the loop with an
    exception. *)
Lemma consume_refused {C} (classify : C -> Delta) (e : Exception) :
  consume classify (inl e) = ([], Some e).
Proof. reflexivity. Qed.

Lemma scan_texts (ts : list string) : scan (map Text ts) = (ts, None).
Proof.
  induction ts as [|t ts IH]; [reflexivity|]. simpl. now rewrite IH.
Qed.

Lemma consume_failed {C} (classify : C -> Delta) (cs : list C)
    (e : Exception) :
  snd (consume classify (inr {| chunks := cs; failure := Some e |}))
  <> None.
Proof.
  unfold consume. cbn [chunks failure].
  destruct (scan (map classify cs)) as [ts [e'|]]; discriminate.
Qed.

Lemma scan_broken (ds ds' : list Delta) (e : Exception) :
  snd (scan (ds ++ Broken e :: ds')) <> None.
Proof.
  induction ds as [|[t| |e'] ds IH]; simpl; try discriminate; try exact IH.
  destruct (scan (ds ++ Broken e :: ds')) as [ts err]. exact IH.
Qed.

(** C5.  Whatever the backends do, the router returns: no exception
    leaves it.  When the call of a known backend fails, at once or while
    its stream is read, the last thing the router yields is a
    conversation that ends with an assistant Turn carrying the error
    label and the message of the exception. *)
Theorem C5_no_exception_leaves_router (be : Backends) (code question : string)
    (history : loc) (model_name : string) (h : Heap) (hist : list Message) :
  h !! history = Some hist ->
  let r := chat_router be code question history model_name h in
  outcome r = Returned tt
  /\ forall (m : Model) (frags : list string) (e : Exception),
      model_of model_name = Some m ->
      consumed be m code question hist = (frags, Some e) ->
      last (snapshots (trace r))
      = Some (hist ++ [user_msg (user_content_of code question);
                       assistant_msg (error_label m +:+ str e)]).
Proof.
  intros Hh r. subst r. split.
  - destruct (model_of model_name) as [m|] eqn:Hm.
    + now rewrite (router_run be code question history h hist Hh
                     model_name m Hm).
    + now rewrite (router_unknown_run be code question history h
                     model_name Hm).
  - intros m frags e Hm Hgot.
    rewrite (router_run be code question history h hist Hh model_name m Hm).
    rewrite handler_snapshots, Hgot, built_growing.
    now rewrite last_snoc.
Qed.

Lemma C5_witness :
  ([[]] : Heap) !! 0 = Some []
  /\ outcome (chat_router failing "" "hi" 0 "Claude" [[]]) = Returned tt
  /\ forall (m : Model) (frags : list string) (e : Exception),
      model_of "Claude" = Some m ->
      consumed failing m "" "hi" [] = (frags, Some e) ->
      last (snapshots (trace (chat_router failing "" "hi" 0 "Claude" [[]])))
      = Some ([] ++ [user_msg (user_content_of "" "hi");
                     assistant_msg (error_label m +:+ str e)]).
Proof.
  split; [reflexivity|].
  apply (C5_no_exception_leaves_router failing "" "hi" 0 "Claude" [[]] []).
  reflexivity.
Defined.

(** A run in which a failure is met and shown. *)
Example failure_is_shown :
  last (snapshots (trace (chat_router failing "" "hi" 0 "Claude" [[]])))
  = Some [user_msg "hi"; assistant_msg "Claude Error: boom"].
Proof. reflexivity. Qed.

(** * Composition of the user content *)

Lemma user_content_parts (code question : string) :
  user_content_of code question
  = (if truthy code
     then "Please explain this code:" +:+ nl +:+ nl
          +:+ fenced (strip code) +:+ nl +:+ nl
     else "")
    +:+ (if truthy question then strip question else "").
Proof.
  unfold user_content_of, fenced.
  destruct code as [|c code], question as [|q question]; cbn [truthy];
    rewrite ?append_nil_l, ?append_nil_r, ?append_assoc; reflexivity.
Qed.

(** [strip] cuts a blank prefix and a blank suffix off, and what is left
    is trimmed. *)

Lemma lstrip_decomp (s : string) :
  exists pre, s = pre +:+ lstrip s /\ blank pre = true.
Proof.
  induction s as [|c s [pre [Hs Hpre]]].
  - now exists "".
  - simpl. destruct (isspace c) eqn:Hc.
    + exists (String c pre). split.
      * change (String c s = String c (pre +:+ lstrip s)). now rewrite <- Hs.
      * simpl. now rewrite Hc.
    + now exists "".
Qed.

Lemma lstrip_start (s : string) : starts_with_space (lstrip s) = false.
Proof.
  induction s as [|c s IH]; [reflexivity|].
  simpl. destruct (isspace c) eqn:Hc; [exact IH | exact Hc].
Qed.

Lemma rstrip_decomp (s : string) :
  exists post, s = rstrip s +:+ post /\ blank post = true.
Proof.
  induction s as [|c s [post [Hs Hpost]]].
  - now exists "".
  - simpl. destruct (rstrip s) as [|d r] eqn:Hr.
    + destruct (isspace c) eqn:Hc.
      * exists (String c post). split.
        -- change (String c s = String c post). now rewrite Hs.
        -- simpl. now rewrite Hc.
      * exists post. split; [|exact Hpost].
        change (String c s = String c post). now rewrite Hs.
    + exists post. split; [|exact Hpost].
      change (String c s = String c (String d r +:+ post)). now rewrite <- Hs.
Qed.

Lemma rstrip_end (s : string) : ends_with_space (rstrip s) = false.
Proof.
  induction s as [|c s IH]; [reflexivity|].
  simpl. destruct (rstrip s) as [|d r].
  - destruct (isspace c) eqn:Hc; [reflexivity | exact Hc].
  - exact IH.
Qed.

Lemma rstrip_start (s : string) :
  starts_with_space s = false -> starts_with_space (rstrip s) = false.
Proof.
  destruct s as [|c s]; [reflexivity|]. simpl. intros Hc.
  destruct (rstrip s); [now rewrite Hc | exact Hc].
Qed.

Lemma strip_trimmed (s : string) :
  (exists pre post,
      s = pre +:+ strip s +:+ post /\ blank pre = true /\ blank post = true)
  /\ starts_with_space (strip s) = false
  /\ ends_with_space (strip s) = false.
Proof.
  unfold strip. split; [|split].
  - destruct (lstrip_decomp s) as [pre [Hs Hpre]].
    destruct (rstrip_decomp (lstrip s)) as [post [Hl Hpost]].
    exists pre, post. now rewrite <- Hl.
  - apply rstrip_start, lstrip_start.
  - apply rstrip_end.
Qed.

Example strip_sample :
  strip (" " +:+ nl +:+ "x = 1  # one " +:+ nl +:+ nl) = "x = 1  # one".
Proof. reflexivity. Qed.

Lemma request_messages_call_of (m : Model) (code question : string)
    (hist : list Message) :
  request_messages (call_of m code question hist)
  = system_part m ++ hist ++ user_part (user_content_of code question).
Proof. destruct m; reflexivity. Qed.

Lemma built_turn_pairs (label : string) (hist : list Message) (uc : string)
    (got : list string * option Exception) :
  Forall (fun snap =>
            exists body, snap = hist ++ [user_msg uc; assistant_msg body])
    (built label hist uc got).
Proof.
  destruct got as [ts err]. rewrite built_growing. apply Forall_app; split.
  - unfold growing. apply Forall_map, Forall_forall. intros k _. now eexists.
  - destruct err as [e|]; [|constructor].
    constructor; [|constructor]. now eexists.
Qed.

Lemma trimmed_strip (s : string) : trimmed_from s (strip s).
Proof. apply strip_trimmed. Qed.

(** No fence stands first in the user content when there is code: the
    lead-in line does. *)
Lemma fence_never_first (code question : string) :
  code <> "" -> ~ fenced_block_first code (user_content_of code question).
Proof.
  intros Hcode [tag [rest Huc]]. rewrite user_content_parts in Huc.
  apply truthy_true in Hcode. rewrite Hcode in Huc.
  rewrite !append_assoc in Huc. discriminate Huc.
Qed.

(** C6, as stated, fails: for the code [print('hi')] the body of the
    user Turn starts with the lead-in line [Please explain this code:],
    so no fenced block is a prefix of it. *)
Lemma C6_counterexample :
  let r := chat_router answering "print('hi')" "" 0 "GPT" [[]] in
  let uc := "Please explain this code:" +:+ nl +:+ nl +:+ "```python" +:+ nl
            +:+ "print('hi')" +:+ nl +:+ "```" +:+ nl +:+ nl in
  snapshots (trace r)
  = [[user_msg uc; assistant_msg "Sure"];
     [user_msg uc; assistant_msg "Sure, this prints hi"]]
  /\ ~ fenced_block_first "print('hi')" uc.
Proof.
  split; [reflexivity|].
  apply (fence_never_first "print('hi')" ""). discriminate.
Qed.

(** C6, amended.  In each of the three handlers the user content is
    made of two parts.  When the code is non-empty the first part is the
    line [Please explain this code:], an empty line, the trimmed code
    between a fence tagged [python] and its closing fence, and an empty
    line; when the question is non-empty the second part is the trimmed
    question, which is the whole content when the code is empty.
    Trimmed means without the spaces at both ends and otherwise as it
    was.  That content is the body of the user Turn of every snapshot
    and, unless it is empty, the last message of the request. *)
Theorem C6_user_content_composition (be : Backends) (code question : string)
    (history : loc) (model_name : string) (m : Model) (h : Heap)
    (hist : list Message) :
  h !! history = Some hist ->
  model_of model_name = Some m ->
  let r := chat_router be code question history model_name h in
  let uc :=
    (if truthy code
     then "Please explain this code:" +:+ nl +:+ nl
          +:+ fenced (strip code) +:+ nl +:+ nl
     else "")
    +:+ (if truthy question then strip question else "") in
  (exists call,
      calls (trace r) = [call]
      /\ request_messages call = system_part m ++ hist ++ user_part uc)
  /\ Forall (fun snap =>
              exists body, snap = hist ++ [user_msg uc; assistant_msg body])
       (snapshots (trace r))
  /\ trimmed_from code (strip code)
  /\ trimmed_from question (strip question)
  /\ (code = "" -> question <> "" -> uc = strip question).
Proof.
  intros Hh Hm r uc. subst r uc.
  rewrite (router_run be code question history h hist Hh model_name m Hm).
  rewrite handler_calls, handler_snapshots, <- user_content_parts.
  split; [|split; [|split; [|split]]].
  - eexists; split; [reflexivity | apply request_messages_call_of].
  - apply built_turn_pairs.
  - apply trimmed_strip.
  - apply trimmed_strip.
  - intros -> Hq. rewrite user_content_parts.
    apply truthy_true in Hq. now rewrite Hq.
Qed.

Lemma C6_witness :
  ([[]] : Heap) !! 0 = Some []
  /\ model_of "Llama" = Some Llama
  /\ (exists call,
        calls (trace (chat_router answering " x = 1 " " why? " 0 "Llama" [[]]))
        = [call]
        /\ request_messages call
           = system_part Llama ++ []
             ++ user_part
                  ((if truthy " x = 1 "
                    then "Please explain this code:" +:+ nl +:+ nl
                         +:+ fenced (strip " x = 1 ") +:+ nl +:+ nl
                    else "")
                   +:+ (if truthy " why? " then strip " why? " else "")))
  /\ Forall (fun snap =>
              exists body,
                snap
                = [] ++ [user_msg
                           ((if truthy " x = 1 "
                             then "Please explain this code:" +:+ nl +:+ nl
                                  +:+ fenced (strip " x = 1 ") +:+ nl +:+ nl
                             else "")
                            +:+ (if truthy " why? " then strip " why? "
                                 else ""));
                         assistant_msg body])
       (snapshots
          (trace (chat_router answering " x = 1 " " why? " 0 "Llama" [[]])))
  /\ trimmed_from " x = 1 " (strip " x = 1 ")
  /\ trimmed_from " why? " (strip " why? ")
  /\ (" x = 1 " = "" -> " why? " <> "" ->
      (if truthy " x = 1 "
       then "Please explain this code:" +:+ nl +:+ nl
            +:+ fenced (strip " x = 1 ") +:+ nl +:+ nl
       else "")
      +:+ (if truthy " why? " then strip " why? " else "")
      = strip " why? ").
Proof.
  split; [reflexivity|]. split; [reflexivity|].
  apply (C6_user_content_composition answering " x = 1 " " why? " 0 "Llama"
           Llama [[]] []); reflexivity.
Defined.

Example composed_sample :
  snapshots (trace (chat_router silent " x = 1 " " why? " 0 "Llama" [[]])) = []
  /\ last (request_messages (call_of Llama " x = 1 " " why? " []))
     = Some (user_msg
               ("Please explain this code:" +:+ nl +:+ nl +:+ "```python"
                +:+ nl +:+ "x = 1" +:+ nl +:+ "```" +:+ nl +:+ nl
                +:+ "why?")).
Proof. split; reflexivity. Qed.

(** * The caller's list *)

(** A handler leaves the list it was given as it was. *)
Lemma known_model_keeps_history (be : Backends) (code question : string)
    (history : loc) (model_name : string) (m : Model) (h : Heap)
    (hist : list Message) :
  h !! history = Some hist ->
  model_of model_name = Some m ->
  store (chat_router be code question history model_name h) !! history
  = Some hist.
Proof.
  intros Hh Hm.
  rewrite (router_run be code question history h hist Hh model_name m Hm).
  unfold handler_run. cbn [store]. now apply lookup_app_l_Some.
Qed.

(** The last branch of the router does not. *)
Lemma unknown_model_extends_history (be : Backends) (code question : string)
    (history : loc) (model_name : string) (h : Heap) (hist : list Message) :
  h !! history = Some hist ->
  model_of model_name = None ->
  store (chat_router be code question history model_name h) !! history
  = Some (hist ++ [assistant_msg "Unknown model selected."]).
Proof.
  intros Hh Hm.
  rewrite (router_unknown_run be code question history h model_name Hm).
  cbn [store]. now rewrite list_lookup_alter_eq, Hh.
Qed.

(** C7 does not hold of the code.  With a name the router does not
    know, the list object the caller passed as history is extended in
    place: after the run the caller's own list holds one Turn more. *)
Theorem C7_unknown_model_alters_callers_history :
  let h := [[user_msg "old"]] in
  let r := chat_router answering "x = 1" "" 0 "Gemini" h in
  h !! 0 = Some [user_msg "old"]
  /\ store r !! 0
     = Some [user_msg "old"; assistant_msg "Unknown model selected."]
  /\ outputs (trace r) = [(0, "", "")].
Proof. repeat split. Qed.

(** * The request of the second backend *)

(** C8.  The handler of the second backend makes one call; it passes
    the system prompt as the [system] argument, 1024 as [max_tokens] and
    0.4 as [temperature]; its message list is the history and the
    message of this turn, so a message of role [system] in it can only
    come from the history. *)
Theorem C8_claude_request (be : Backends) (code question : string)
    (history : loc) (h : Heap) (hist : list Message) :
  h !! history = Some hist ->
  exists req,
    calls (trace (chat_claude_answer_stream be code question history h))
    = [CallAnthropic req]
    /\ an_system req = SYSTEM_PROMPT
    /\ an_max_tokens req = 1024%Z
    /\ an_temperature req = 0.4%Q
    /\ an_messages req = hist ++ user_part (user_content_of code question)
    /\ forall msg, In msg (an_messages req) -> role msg = "system" ->
                   In msg hist.
Proof.
  intros Hh. exists (claude_request code question hist).
  rewrite (claude_run be code question history h hist Hh).
  rewrite (handler_calls be Claude).
  do 5 (split; [reflexivity|]).
  intros msg Hin Hrole. cbn [claude_request an_messages] in Hin.
  apply in_app_or in Hin as [Hin|Hin]; [exact Hin|].
  unfold user_part in Hin. destruct (truthy _); [|contradiction].
  destruct Hin as [<-|[]]. discriminate Hrole.
Qed.

Lemma C8_witness :
  ([[user_msg "old"]] : Heap) !! 0 = Some [user_msg "old"]
  /\ exists req,
      calls (trace (chat_claude_answer_stream answering "x = 1" "" 0
                      [[user_msg "old"]]))
      = [CallAnthropic req]
      /\ an_system req = SYSTEM_PROMPT
      /\ an_max_tokens req = 1024%Z
      /\ an_temperature req = 0.4%Q
      /\ an_messages req
         = [user_msg "old"] ++ user_part (user_content_of "x = 1" "")
      /\ forall msg, In msg (an_messages req) -> role msg = "system" ->
                     In msg [user_msg "old"].
Proof.
  split; [reflexivity|].
  apply (C8_claude_request answering "x = 1" "" 0 [[user_msg "old"]]
           [user_msg "old"]).
  reflexivity.
Defined.

(** * Which chunks are shown *)

Lemma scan_gpt (cs : list GptChunk) :
  Forall (fun c => choices c <> []) cs ->
  scan (map gpt_delta cs) = (List.filter truthy (omap gpt_text cs), None).
Proof.
  induction 1 as [|c cs Hc _ IH]; [reflexivity|].
  cbn [map scan]. unfold gpt_delta at 1.
  change (omap gpt_text (c :: cs))
    with (match gpt_text c with
          | Some t => t :: omap gpt_text cs
          | None => omap gpt_text cs
          end).
  unfold gpt_text at 1.
  destruct (choices c) as [|[t|] rest]; [congruence | |exact IH].
  cbn [List.filter]. destruct (truthy t); [now rewrite IH | exact IH].
Qed.

Lemma scan_claude (cs : list ClaudeChunk) :
  scan (map claude_delta cs) = (omap claude_text cs, None).
Proof.
  induction cs as [|c cs IH]; [reflexivity|].
  cbn [map scan]. unfold claude_delta at 1.
  change (omap claude_text (c :: cs))
    with (match claude_text c with
          | Some t => t :: omap claude_text cs
          | None => omap claude_text cs
          end).
  unfold claude_text at 1.
  destruct (String.eqb _ _); [|exact IH].
  destruct (delta_text c); [now rewrite IH | exact IH].
Qed.

Lemma scan_llama (cs : list LlamaChunk) :
  scan (map llama_delta cs) = (omap llama_text cs, None).
Proof.
  induction cs as [|c cs IH]; [reflexivity|].
  cbn [map scan]. unfold llama_delta at 1.
  change (omap llama_text (c :: cs))
    with (match llama_text c with
          | Some t => t :: omap llama_text cs
          | None => omap llama_text cs
          end).
  unfold llama_text at 1.
  destruct (message c) as [[t|]|]; [now rewrite IH | exact IH | exact IH].
Qed.

Lemma join_skips_empty (ts : list string) :
  join (List.filter truthy ts) = join ts.
Proof.
  induction ts as [|[|c t] ts IH]; [reflexivity | exact IH |].
  cbn [List.filter truthy join]. now rewrite IH.
Qed.

(** C9, as stated, fails: the second backend sends the text deltas
    ["Sure"], the empty string and [", this prints hi"], and the handler
    emits three snapshots, the second of them for the empty delta. *)
Lemma C9_counterexample :
  let r := chat_router answering "" "hi" 0 "Claude" [[]] in
  anthropic_reply answering (claude_request "" "hi" [])
  = inr {| chunks := [ {| type := "message_start"; delta_text := None |};
                       {| type := "content_block_delta";
                          delta_text := Some "Sure" |};
                       {| type := "content_block_delta";
                          delta_text := Some "" |};
                       {| type := "content_block_delta";
                          delta_text := Some ", this prints hi" |} ];
         failure := None |}
  /\ snapshots (trace r)
     = [[user_msg "hi"; assistant_msg "Sure"];
        [user_msg "hi"; assistant_msg "Sure"];
        [user_msg "hi"; assistant_msg "Sure, this prints hi"]]
  /\ ~ one_per_nonempty_text
        [None; Some "Sure"; Some ""; Some ", this prints hi"] r.
Proof.
  split; [reflexivity|]. split; [reflexivity|].
  unfold one_per_nonempty_text. vm_compute. discriminate.
Qed.

Lemma scan_gpt_all (cs : list GptChunk) :
  scan (map gpt_delta cs)
  = (List.filter truthy (omap gpt_text (read_chunks cs)),
     gpt_reading_end cs None).
Proof.
  unfold gpt_reading_end.
  induction cs as [|[[|[t|] rest]] cs IH]; try reflexivity.
  - cbn [map scan]. unfold gpt_delta at 1. cbn [choices].
    cbn [read_chunks choices existsb orb].
    change (omap gpt_text ({| choices := Some t :: rest |} :: read_chunks cs))
      with (t :: omap gpt_text (read_chunks cs)).
    cbn [List.filter]. rewrite IH. now destruct (truthy t).
  - cbn [map scan]. unfold gpt_delta at 1. cbn [choices].
    cbn [read_chunks choices existsb orb]. exact IH.
Qed.

Lemma built_error (label : string) (hist : list Message) (uc : string)
    (ts : list string) (err : option Exception) :
  built label hist uc (ts, err)
  = growing hist uc ts ++ error_snapshot label hist uc err.
Proof. apply built_growing. Qed.

(** C9, amended.  The first handler reads the chunks up to the first
    one whose [choices] list is empty, and emits one snapshot for each
    of them whose text delta is a non-empty string; an empty text or
    none gives no emission there.  The second and the third handler emit
    one snapshot for every chunk that carries a text delta, an empty one
    included, and none for a chunk without one.  The bodies are the
    running concatenations of those deltas, to which an empty delta adds
    nothing.  After these snapshots comes the one of the error if the
    reading ended with an exception: that of the stream or, in the first
    handler, the index error of the chunk without a choice. *)
Theorem C9_emission_per_text_delta (be : Backends) (code question : string)
    (history : loc) (h : Heap) (hist : list Message) :
  h !! history = Some hist ->
  let uc := user_content_of code question in
  (forall cs ending,
      openai_reply be (gpt_request code question hist)
      = inr {| chunks := cs; failure := ending |} ->
      snapshots (trace (chat_router be code question history "GPT" h))
      = growing hist uc (List.filter truthy (omap gpt_text (read_chunks cs)))
        ++ error_snapshot "GPT Error: " hist uc (gpt_reading_end cs ending))
  /\ (forall cs ending,
        anthropic_reply be (claude_request code question hist)
        = inr {| chunks := cs; failure := ending |} ->
        snapshots (trace (chat_router be code question history "Claude" h))
        = growing hist uc (omap claude_text cs)
          ++ error_snapshot "Claude Error: " hist uc ending)
  /\ (forall cs ending,
        ollama_reply be (llama_request code question hist)
        = inr {| chunks := cs; failure := ending |} ->
        snapshots (trace (chat_router be code question history "Llama" h))
        = growing hist uc (omap llama_text cs)
          ++ error_snapshot "Llama Error: " hist uc ending)
  /\ (forall ts, join (List.filter truthy ts) = join ts).
Proof.
  intros Hh uc. subst uc. split; [|split; [|split]].
  - intros cs ending Hreply.
    rewrite (router_run be code question history h hist Hh "GPT" GPT eq_refl).
    rewrite handler_snapshots. unfold consumed, consume. rewrite Hreply.
    cbn [chunks failure]. rewrite (scan_gpt_all cs), built_error.
    unfold gpt_reading_end. cbn [error_label].
    now destruct (existsb _ cs).
  - intros cs ending Hreply.
    rewrite (router_run be code question history h hist Hh "Claude" Claude
               eq_refl).
    rewrite handler_snapshots. unfold consumed, consume. rewrite Hreply.
    cbn [chunks failure]. now rewrite (scan_claude cs), built_error.
  - intros cs ending Hreply.
    rewrite (router_run be code question history h hist Hh "Llama" Llama
               eq_refl).
    rewrite handler_snapshots. unfold consumed, consume. rewrite Hreply.
    cbn [chunks failure]. now rewrite (scan_llama cs), built_error.
  - apply join_skips_empty.
Qed.

Lemma C9_witness :
  ([[]] : Heap) !! 0 = Some []
  /\ (forall cs ending,
        openai_reply malformed (gpt_request "" "hi" [])
        = inr {| chunks := cs; failure := ending |} ->
        snapshots (trace (chat_router malformed "" "hi" 0 "GPT" [[]]))
        = growing [] (user_content_of "" "hi")
            (List.filter truthy (omap gpt_text (read_chunks cs)))
          ++ error_snapshot "GPT Error: " [] (user_content_of "" "hi")
               (gpt_reading_end cs ending))
  /\ (forall cs ending,
        anthropic_reply malformed (claude_request "" "hi" [])
        = inr {| chunks := cs; failure := ending |} ->
        snapshots (trace (chat_router malformed "" "hi" 0 "Claude" [[]]))
        = growing [] (user_content_of "" "hi") (omap claude_text cs)
          ++ error_snapshot "Claude Error: " [] (user_content_of "" "hi")
               ending)
  /\ (forall cs ending,
        ollama_reply malformed (llama_request "" "hi" [])
        = inr {| chunks := cs; failure := ending |} ->
        snapshots (trace (chat_router malformed "" "hi" 0 "Llama" [[]]))
        = growing [] (user_content_of "" "hi") (omap llama_text cs)
          ++ error_snapshot "Llama Error: " [] (user_content_of "" "hi")
               ending)
  /\ (forall ts, join (List.filter truthy ts) = join ts).
Proof.
  split; [reflexivity|].
  apply (C9_emission_per_text_delta malformed "" "hi" 0 [[]] []).
  reflexivity.
Defined.

(** What the three handlers show of the same deltas, ["Sure"], the
    empty string and [", this prints hi"], after a chunk without text;
    and of a stream with a chunk that has no choice. *)
Example emissions_sample :
  snapshots (trace (chat_router answering "" "hi" 0 "Llama" [[]]))
  = growing [] "hi" ["Sure"; ""; ", this prints hi"]
  /\ snapshots (trace (chat_router answering "" "hi" 0 "GPT" [[]]))
     = growing [] "hi" ["Sure"; ", this prints hi"]
  /\ snapshots (trace (chat_router malformed "" "hi" 0 "GPT" [[]]))
     = growing [] "hi" ["Sure"]
       ++ error_snapshot "GPT Error: " [] "hi" (Some IndexError).
Proof. repeat split. Qed.

(** The first handler on the same deltas: two snapshots, none for the
    empty delta. *)
Example gpt_skips_empty_delta :
  snapshots (trace (chat_router answering "" "hi" 0 "GPT" [[]]))
  = [[user_msg "hi"; assistant_msg "Sure"];
     [user_msg "hi"; assistant_msg "Sure, this prints hi"]].
Proof. reflexivity. Qed.

(** * The input fields *)

(** C10.  Every value the router yields, be it a snapshot of a reply,
    the report of an error or the answer to an unknown name, carries the
    empty string for the code field and for the question field. *)
Theorem C10_inputs_cleared_on_every_emission (be : Backends)
    (code question : string) (history : loc) (model_name : string)
    (h : Heap) (hist : list Message) :
  h !! history = Some hist ->
  Forall (fun v => snd (fst v) = "" /\ snd v = "")
    (outputs (trace (chat_router be code question history model_name h))).
Proof.
  intros Hh. destruct (model_of model_name) as [m|] eqn:Hm.
  - rewrite (router_run be code question history h hist Hh model_name m Hm).
    unfold handler_run. cbn [trace].
    replace (outputs (call_of m code question hist :: yields h _))
      with (outputs (yields h
              (built (error_label m) hist (user_content_of code question)
                 (consumed be m code question hist))))
      by (destruct m; reflexivity).
    rewrite outputs_yields. apply Forall_map, Forall_forall.
    intros i _. now split.
  - rewrite (router_unknown_run be code question history h model_name Hm).
    cbn. constructor; [now split | constructor].
Qed.

Lemma C10_witness :
  ([[]] : Heap) !! 0 = Some []
  /\ Forall (fun v => snd (fst v) = "" /\ snd v = "")
       (outputs (trace (chat_router failing "x = 1" "why?" 0 "Llama" [[]]))).
Proof.
  split; [reflexivity|].
  apply (C10_inputs_cleared_on_every_emission failing "x = 1" "why?" 0
           "Llama" [[]] []).
  reflexivity.
Defined.

Example outputs_sample :
  outputs (trace (chat_router failing "x = 1" "why?" 0 "Llama" [[]]))
  = [(1, "", ""); (2, "", "")].
Proof. reflexivity. Qed.

(** * Further properties of the handlers *)

(** X1.  The first handler makes one call: model [gpt-4o-mini],
    temperature 0.4, streaming on; its message list is the system prompt
    as a message of role [system], then the history in its order, then
    the message of this turn unless its content is empty. *)
Theorem X1_gpt_request (be : Backends) (code question : string)
    (history : loc) (h : Heap) (hist : list Message) :
  h !! history = Some hist ->
  exists req,
    calls (trace (chat_gpt_answer_stream be code question history h))
    = [CallOpenAI req]
    /\ oa_model req = "gpt-4o-mini"
    /\ oa_temperature req = 0.4%Q
    /\ oa_stream req = true
    /\ oa_messages req
       = system_msg SYSTEM_PROMPT :: hist
         ++ user_part (user_content_of code question).
Proof.
  intros Hh. exists (gpt_request code question hist).
  rewrite (gpt_run be code question history h hist Hh).
  rewrite (handler_calls be GPT). repeat split.
Qed.

Lemma X1_witness :
  ([[user_msg "old"]] : Heap) !! 0 = Some [user_msg "old"]
  /\ exists req,
      calls (trace (chat_gpt_answer_stream answering "x = 1" "" 0
                      [[user_msg "old"]]))
      = [CallOpenAI req]
      /\ oa_model req = "gpt-4o-mini"
      /\ oa_temperature req = 0.4%Q
      /\ oa_stream req = true
      /\ oa_messages req
         = system_msg SYSTEM_PROMPT :: [user_msg "old"]
           ++ user_part (user_content_of "x = 1" "").
Proof.
  split; [reflexivity|].
  apply (X1_gpt_request answering "x = 1" "" 0 [[user_msg "old"]]
           [user_msg "old"]).
  reflexivity.
Defined.

(** X2.  The third handler makes one call: model [llama3.2], streaming
    on, and the same message list as the first handler builds, the
    system prompt first as a message. *)
Theorem X2_llama_request (be : Backends) (code question : string)
    (history : loc) (h : Heap) (hist : list Message) :
  h !! history = Some hist ->
  exists req,
    calls (trace (chat_llama_answer_stream be code question history h))
    = [CallOllama req]
    /\ ol_model req = "llama3.2"
    /\ ol_stream req = true
    /\ ol_messages req
       = system_msg SYSTEM_PROMPT :: hist
         ++ user_part (user_content_of code question).
Proof.
  intros Hh. exists (llama_request code question hist).
  rewrite (llama_run be code question history h hist Hh).
  rewrite (handler_calls be Llama). repeat split.
Qed.

Lemma X2_witness :
  ([[user_msg "old"]] : Heap) !! 0 = Some [user_msg "old"]
  /\ exists req,
      calls (trace (chat_llama_answer_stream answering "" "why?" 0
                      [[user_msg "old"]]))
      = [CallOllama req]
      /\ ol_model req = "llama3.2"
      /\ ol_stream req = true
      /\ ol_messages req
         = system_msg SYSTEM_PROMPT :: [user_msg "old"]
           ++ user_part (user_content_of "" "why?").
Proof.
  split; [reflexivity|].
  apply (X2_llama_request answering "" "why?" 0 [[user_msg "old"]]
           [user_msg "old"]).
  reflexivity.
Defined.

(** X3.  With a known name the router calls the backend once, before it
    yields anything, and never again: whatever the backend does, a
    failure included, the trace is that call followed by yields only. *)
Theorem X3_one_call_before_any_yield (be : Backends) (code question : string)
    (history : loc) (model_name : string) (m : Model) (h : Heap)
    (hist : list Message) :
  h !! history = Some hist ->
  model_of model_name = Some m ->
  exists rest,
    trace (chat_router be code question history model_name h)
    = call_of m code question hist :: rest
    /\ calls rest = []
    /\ List.length (outputs rest) = List.length rest.
Proof.
  intros Hh Hm.
  rewrite (router_run be code question history h hist Hh model_name m Hm).
  unfold handler_run. cbn [trace]. eexists. split; [reflexivity|].
  split; [apply calls_yields|].
  rewrite outputs_yields, length_map, length_seq.
  generalize h.
  induction (built _ _ _ _) as [|s snaps IH]; intros h0; [reflexivity|].
  cbn [yields List.length]. now rewrite <- IH.
Qed.

Lemma X3_witness :
  ([[]] : Heap) !! 0 = Some []
  /\ model_of "Claude" = Some Claude
  /\ exists rest,
      trace (chat_router failing "" "hi" 0 "Claude" [[]])
      = call_of Claude "" "hi" [] :: rest
      /\ calls rest = []
      /\ List.length (outputs rest) = List.length rest.
Proof.
  split; [reflexivity|]. split; [reflexivity|].
  apply (X3_one_call_before_any_yield failing "" "hi" 0 "Claude" Claude
           [[]] []); reflexivity.
Defined.

(** X4.  With a known name the router only adds list objects: the store
    at the end is the store at the start followed by the lists it
    showed, in order, so every list that was there keeps its items. *)
Theorem X4_known_model_only_adds_lists (be : Backends)
    (code question : string) (history : loc) (model_name : string)
    (m : Model) (h : Heap) (hist : list Message) :
  h !! history = Some hist ->
  model_of model_name = Some m ->
  let r := chat_router be code question history model_name h in
  store r = h ++ snapshots (trace r)
  /\ forall l items, h !! l = Some items -> store r !! l = Some items.
Proof.
  intros Hh Hm r. subst r.
  rewrite (router_run be code question history h hist Hh model_name m Hm).
  rewrite handler_snapshots. unfold handler_run. cbn [store].
  split; [reflexivity|].
  intros l items Hl. now apply lookup_app_l_Some.
Qed.

Lemma X4_witness :
  ([[user_msg "old"]] : Heap) !! 0 = Some [user_msg "old"]
  /\ model_of "GPT" = Some GPT
  /\ store (chat_router failing "x" "" 0 "GPT" [[user_msg "old"]])
     = [[user_msg "old"]]
       ++ snapshots (trace (chat_router failing "x" "" 0 "GPT"
                              [[user_msg "old"]]))
  /\ forall l items,
      ([[user_msg "old"]] : Heap) !! l = Some items ->
      store (chat_router failing "x" "" 0 "GPT" [[user_msg "old"]]) !! l
      = Some items.
Proof.
  split; [reflexivity|]. split; [reflexivity|].
  apply (X4_known_model_only_adds_lists failing "x" "" 0 "GPT" GPT
           [[user_msg "old"]] [user_msg "old"]); reflexivity.
Defined.

(** X5.  With any other name the router builds no list: it yields the
    reference it was given, whose list has grown by the one Turn, and
    every other list of the store is as it was. *)
Theorem X5_unknown_model_yields_the_history_itself (be : Backends)
    (code question : string) (history : loc) (model_name : string)
    (h : Heap) (hist : list Message) :
  h !! history = Some hist ->
  model_of model_name = None ->
  let r := chat_router be code question history model_name h in
  outputs (trace r) = [(history, "", "")]
  /\ List.length (store r) = List.length h
  /\ store r !! history
     = Some (hist ++ [assistant_msg "Unknown model selected."])
  /\ forall l, l <> history -> store r !! l = h !! l.
Proof.
  intros Hh Hm r. subst r.
  rewrite (router_unknown_run be code question history h model_name Hm).
  cbn [store trace]. split; [reflexivity|]. split; [apply length_alter|].
  split.
  - now rewrite list_lookup_alter_eq, Hh.
  - intros l Hl. now apply list_lookup_alter_ne.
Qed.

Lemma X5_witness :
  ([[user_msg "a"]; [user_msg "b"]] : Heap) !! 1 = Some [user_msg "b"]
  /\ model_of "gpt" = None
  /\ outputs (trace (chat_router answering "x" "" 1 "gpt"
                       [[user_msg "a"]; [user_msg "b"]]))
     = [(1, "", "")]
  /\ List.length (store (chat_router answering "x" "" 1 "gpt"
                           [[user_msg "a"]; [user_msg "b"]]))
     = List.length ([[user_msg "a"]; [user_msg "b"]] : Heap)
  /\ store (chat_router answering "x" "" 1 "gpt"
              [[user_msg "a"]; [user_msg "b"]]) !! 1
     = Some ([user_msg "b"] ++ [assistant_msg "Unknown model selected."])
  /\ forall l, l <> 1 ->
      store (chat_router answering "x" "" 1 "gpt"
               [[user_msg "a"]; [user_msg "b"]]) !! l
      = ([[user_msg "a"]; [user_msg "b"]] : Heap) !! l.
Proof.
  split; [reflexivity|]. split; [reflexivity|].
  apply (X5_unknown_model_yields_the_history_itself answering "x" "" 1 "gpt"
           [[user_msg "a"]; [user_msg "b"]] [user_msg "b"]); reflexivity.
Defined.

(** X6.  With a known name every yielded reference names a list built
    in this run: the references are the next free places of the store,
    one after the other, so no two are the same and none is the history
    or any list that was there before. *)
Theorem X6_yielded_lists_are_new (be : Backends) (code question : string)
    (history : loc) (model_name : string) (m : Model) (h : Heap)
    (hist : list Message) :
  h !! history = Some hist ->
  model_of model_name = Some m ->
  let r := chat_router be code question history model_name h in
  let refs := map shown_list (outputs (trace r)) in
  refs = seq (List.length h) (List.length (snapshots (trace r)))
  /\ NoDup refs
  /\ ~ In history refs
  /\ Forall (fun l => h !! l = None) refs.
Proof.
  intros Hh Hm r refs. subst r refs.
  rewrite (router_run be code question history h hist Hh model_name m Hm).
  rewrite handler_snapshots. unfold handler_run. cbn [trace].
  replace (outputs (call_of m code question hist :: yields h _))
    with (outputs (yields h
            (built (error_label m) hist (user_content_of code question)
               (consumed be m code question hist))))
    by (destruct m; reflexivity).
  rewrite outputs_yields, map_map. cbn [shown_list fst]. rewrite map_id.
  split; [reflexivity|]. split; [apply NoDup_ListNoDup, seq_NoDup|].
  split.
  - intros Hin. apply in_seq in Hin as [Hge _].
    apply lookup_lt_Some in Hh. lia.
  - apply Forall_forall. intros l Hin.
    apply list_elem_of_In, in_seq in Hin as [Hge _].
    now apply lookup_ge_None.
Qed.

Lemma X6_witness :
  ([[]] : Heap) !! 0 = Some []
  /\ model_of "Llama" = Some Llama
  /\ map shown_list
       (outputs (trace (chat_router answering "x" "" 0 "Llama" [[]])))
     = seq (List.length ([[]] : Heap))
         (List.length
            (snapshots (trace (chat_router answering "x" "" 0 "Llama" [[]]))))
  /\ NoDup
       (map shown_list
          (outputs (trace (chat_router answering "x" "" 0 "Llama" [[]]))))
  /\ ~ In 0
       (map shown_list
          (outputs (trace (chat_router answering "x" "" 0 "Llama" [[]]))))
  /\ Forall (fun l => ([[]] : Heap) !! l = None)
       (map shown_list
          (outputs (trace (chat_router answering "x" "" 0 "Llama" [[]])))).
Proof.
  split; [reflexivity|]. split; [reflexivity|].
  apply (X6_yielded_lists_are_new answering "x" "" 0 "Llama" Llama [[]] []);
    reflexivity.
Defined.

(** X7.  When the call itself raises, before any chunk, each handler
    yields exactly once: the history, the user Turn and an assistant
    Turn with the error label of the backend and the message of the
    exception. *)
Theorem X7_call_refused (be : Backends) (code question : string)
    (history : loc) (h : Heap) (hist : list Message) (e : Exception) :
  h !! history = Some hist ->
  let uc := user_content_of code question in
  (openai_reply be (gpt_request code question hist) = inl e ->
   snapshots (trace (chat_router be code question history "GPT" h))
   = [hist ++ [user_msg uc; assistant_msg ("GPT Error: " +:+ str e)]])
  /\ (anthropic_reply be (claude_request code question hist) = inl e ->
      snapshots (trace (chat_router be code question history "Claude" h))
      = [hist ++ [user_msg uc; assistant_msg ("Claude Error: " +:+ str e)]])
  /\ (ollama_reply be (llama_request code question hist) = inl e ->
      snapshots (trace (chat_router be code question history "Llama" h))
      = [hist ++ [user_msg uc; assistant_msg ("Llama Error: " +:+ str e)]]).
Proof.
  intros Hh uc. subst uc. split; [|split]; intros Hreply.
  - rewrite (router_run be code question history h hist Hh "GPT" GPT eq_refl).
    rewrite handler_snapshots. unfold consumed. now rewrite Hreply.
  - rewrite (router_run be code question history h hist Hh "Claude" Claude
               eq_refl).
    rewrite handler_snapshots. unfold consumed. now rewrite Hreply.
  - rewrite (router_run be code question history h hist Hh "Llama" Llama
               eq_refl).
    rewrite handler_snapshots. unfold consumed. now rewrite Hreply.
Qed.

Lemma X7_witness :
  ([[]] : Heap) !! 0 = Some []
  /\ openai_reply refusing (gpt_request "" "hi" []) = inl boom
  /\ anthropic_reply refusing (claude_request "" "hi" []) = inl boom
  /\ ollama_reply refusing (llama_request "" "hi" []) = inl boom
  /\ (openai_reply refusing (gpt_request "" "hi" []) = inl boom ->
      snapshots (trace (chat_router refusing "" "hi" 0 "GPT" [[]]))
      = [[] ++ [user_msg (user_content_of "" "hi");
                assistant_msg ("GPT Error: " +:+ str boom)]])
  /\ (anthropic_reply refusing (claude_request "" "hi" []) = inl boom ->
      snapshots (trace (chat_router refusing "" "hi" 0 "Claude" [[]]))
      = [[] ++ [user_msg (user_content_of "" "hi");
                assistant_msg ("Claude Error: " +:+ str boom)]])
  /\ (ollama_reply refusing (llama_request "" "hi" []) = inl boom ->
      snapshots (trace (chat_router refusing "" "hi" 0 "Llama" [[]]))
      = [[] ++ [user_msg (user_content_of "" "hi");
                assistant_msg ("Llama Error: " +:+ str boom)]]).
Proof.
  split; [reflexivity|]. split; [reflexivity|]. split; [reflexivity|].
  split; [reflexivity|].
  apply (X7_call_refused refusing "" "hi" 0 [[]] [] boom). reflexivity.
Defined.

(** X8.  When the stream of a known backend ends without error and
    without a fragment to append, the router yields nothing: the call is
    all it does, the store is as it was, and so neither the user Turn
    nor an empty assistant Turn is ever shown. *)
Theorem X8_empty_completion_yields_nothing (be : Backends)
    (code question : string) (history : loc) (model_name : string)
    (m : Model) (h : Heap) (hist : list Message) :
  h !! history = Some hist ->
  model_of model_name = Some m ->
  consumed be m code question hist = ([], None) ->
  let r := chat_router be code question history model_name h in
  trace r = [call_of m code question hist]
  /\ outputs (trace r) = []
  /\ store r = h
  /\ outcome r = Returned tt.
Proof.
  intros Hh Hm Hgot r. subst r.
  rewrite (router_run be code question history h hist Hh model_name m Hm).
  unfold handler_run. rewrite Hgot. cbn.
  rewrite app_nil_r. repeat split. now destruct m.
Qed.

Lemma X8_witness :
  ([[]] : Heap) !! 0 = Some []
  /\ model_of "GPT" = Some GPT
  /\ consumed silent GPT "x = 1" "" [] = ([], None)
  /\ trace (chat_router silent "x = 1" "" 0 "GPT" [[]])
     = [call_of GPT "x = 1" "" []]
  /\ outputs (trace (chat_router silent "x = 1" "" 0 "GPT" [[]])) = []
  /\ store (chat_router silent "x = 1" "" 0 "GPT" [[]]) = [[]]
  /\ outcome (chat_router silent "x = 1" "" 0 "GPT" [[]]) = Returned tt.
Proof.
  split; [reflexivity|]. split; [reflexivity|]. split; [reflexivity|].
  apply (X8_empty_completion_yields_nothing silent "x = 1" "" 0 "GPT" GPT
           [[]] []); reflexivity.
Defined.

Lemma scan_then_broken (ds ds' : list Delta) (ts : list string)
    (e : Exception) :
  scan ds = (ts, None) -> scan (ds ++ Broken e :: ds') = (ts, Some e).
Proof.
  revert ts; induction ds as [|[t| |e'] ds IH]; intros ts; simpl.
  - now intros [= <-].
  - destruct (scan ds) as [ts0 err0]. intros [= <- ->].
    now rewrite (IH ts0 eq_refl).
  - apply IH.
  - discriminate.
Qed.

(** X9.  A chunk of the first backend with an empty [choices] list
    ends the reading there: the fragments of the chunks before it are
    shown, then one error Turn with the message of the index error; the
    chunks after it, and the way the stream would have ended, play no
    part. *)
Theorem X9_gpt_empty_choices (be : Backends) (code question : string)
    (history : loc) (h : Heap) (hist : list Message)
    (before after : list GptChunk) (ending : option Exception) :
  h !! history = Some hist ->
  openai_reply be (gpt_request code question hist)
  = inr {| chunks := before ++ {| choices := [] |} :: after;
           failure := ending |} ->
  Forall (fun c => choices c <> []) before ->
  let uc := user_content_of code question in
  snapshots (trace (chat_router be code question history "GPT" h))
  = growing hist uc (List.filter truthy (omap gpt_text before))
    ++ [hist ++ [user_msg uc;
                 assistant_msg "GPT Error: list index out of range"]].
Proof.
  intros Hh Hreply Hbefore uc. subst uc.
  rewrite (router_run be code question history h hist Hh "GPT" GPT eq_refl).
  rewrite handler_snapshots. unfold consumed, consume. rewrite Hreply.
  cbn [chunks failure]. rewrite map_app. cbn [map].
  change (gpt_delta {| choices := [] |}) with (Broken IndexError).
  rewrite (scan_then_broken _ _ _ IndexError (scan_gpt before Hbefore)).
  now rewrite built_growing.
Qed.

Lemma X9_witness :
  ([[]] : Heap) !! 0 = Some []
  /\ openai_reply malformed (gpt_request "" "hi" [])
     = inr {| chunks := [ {| choices := [Some "Sure"] |} ]
                       ++ {| choices := [] |}
                       :: [ {| choices := [Some " thing"] |} ];
              failure := None |}
  /\ Forall (fun c => choices c <> []) [ {| choices := [Some "Sure"] |} ]
  /\ snapshots (trace (chat_router malformed "" "hi" 0 "GPT" [[]]))
     = growing [] (user_content_of "" "hi")
         (List.filter truthy
            (omap gpt_text [ {| choices := [Some "Sure"] |} ]))
       ++ [[] ++ [user_msg (user_content_of "" "hi");
                  assistant_msg "GPT Error: list index out of range"]].
Proof.
  split; [reflexivity|]. split; [reflexivity|].
  split; [constructor; [discriminate | constructor]|].
  apply (X9_gpt_empty_choices malformed "" "hi" 0 [[]] []
           [ {| choices := [Some "Sure"] |} ]
           [ {| choices := [Some " thing"] |} ] None);
    [reflexivity | reflexivity | constructor; [discriminate | constructor]].
Defined.

Example malformed_sample :
  snapshots (trace (chat_router malformed "" "hi" 0 "GPT" [[]]))
  = [[user_msg "hi"; assistant_msg "Sure"];
     [user_msg "hi"; assistant_msg "GPT Error: list index out of range"]].
Proof. reflexivity. Qed.

(** * More on the user content *)

Lemma blank_lstrip (s : string) : blank s = true -> lstrip s = "".
Proof.
  induction s as [|c s IH]; [reflexivity|]. simpl.
  destruct (isspace c); [exact IH | discriminate].
Qed.

Lemma lstrip_empty (s : string) : lstrip s = "" -> blank s = true.
Proof.
  induction s as [|c s IH]; [reflexivity|]. simpl.
  destruct (isspace c); [exact IH | discriminate].
Qed.

Lemma rstrip_empty (s : string) : rstrip s = "" <-> blank s = true.
Proof.
  induction s as [|c s IH]; [split; reflexivity|]. simpl.
  destruct (rstrip s) as [|d r].
  - destruct (isspace c); simpl.
    + split; [intros _; now apply IH | reflexivity].
    + split; discriminate.
  - split; [discriminate|]. intros Hb.
    apply andb_true_iff in Hb as [_ Hb]. apply IH in Hb. discriminate.
Qed.

Lemma strip_empty (s : string) : strip s = "" <-> blank s = true.
Proof.
  unfold strip. split.
  - intros Hs. apply rstrip_empty in Hs. apply lstrip_empty.
    pose proof (lstrip_start s) as Hstart.
    destruct (lstrip s) as [|c t]; [reflexivity|].
    simpl in Hs, Hstart. now rewrite Hstart in Hs.
  - intros Hb. now rewrite (blank_lstrip s Hb).
Qed.

Lemma question_enters_trimmed (code question : string) :
  user_content_of code question = user_content_of code "" +:+ strip question.
Proof.
  unfold user_content_of. destruct question as [|q question].
  - cbn [truthy]. now rewrite append_nil_r.
  - reflexivity.
Qed.

Lemma user_content_empty (code question : string) :
  user_content_of code question = ""
  <-> code = "" /\ blank question = true.
Proof.
  rewrite question_enters_trimmed. unfold user_content_of at 1.
  destruct code as [|c code]; cbn [truthy].
  - rewrite append_nil_l, strip_empty. split; [now split | now intros [_ ?]].
  - split; [discriminate | intros [? _]; discriminate].
Qed.

(** X10.  The content of the user Turn is empty exactly when the code
    is empty and the question holds nothing but spaces.  In that case,
    and in no other, the request of a known backend carries no message
    for this turn; a question of spaces alone counts as no question,
    while code of spaces alone still gives a message. *)
Theorem X10_when_the_turn_message_is_sent (be : Backends)
    (code question : string) (history : loc) (model_name : string)
    (m : Model) (h : Heap) (hist : list Message) :
  h !! history = Some hist ->
  model_of model_name = Some m ->
  let r := chat_router be code question history model_name h in
  let uc := user_content_of code question in
  (uc = "" <-> code = "" /\ blank question = true)
  /\ exists call,
      calls (trace r) = [call]
      /\ request_messages call
         = system_part m ++ hist
           ++ (if truthy code || negb (blank question)
               then [user_msg uc] else []).
Proof.
  intros Hh Hm r uc. subst r uc.
  split; [apply user_content_empty|].
  rewrite (router_run be code question history h hist Hh model_name m Hm).
  rewrite handler_calls. eexists. split; [reflexivity|].
  rewrite request_messages_call_of. do 2 f_equal. unfold user_part.
  destruct (truthy (user_content_of code question)) eqn:Huc.
  - apply truthy_true in Huc.
    destruct (truthy code) eqn:Hc; [reflexivity|].
    destruct (blank question) eqn:Hb; [|reflexivity].
    exfalso. apply Huc, user_content_empty.
    now apply truthy_false in Hc.
  - apply truthy_false, user_content_empty in Huc as [-> ->]. reflexivity.
Qed.

Lemma X10_witness :
  ([[]] : Heap) !! 0 = Some []
  /\ model_of "GPT" = Some GPT
  /\ (user_content_of "" "  " = "" <-> "" = "" /\ blank "  " = true)
  /\ exists call,
      calls (trace (chat_router answering "" "  " 0 "GPT" [[]])) = [call]
      /\ request_messages call
         = system_part GPT ++ []
           ++ (if truthy "" || negb (blank "  ")
               then [user_msg (user_content_of "" "  ")] else []).
Proof.
  split; [reflexivity|]. split; [reflexivity|].
  apply (X10_when_the_turn_message_is_sent answering "" "  " 0 "GPT" GPT
           [[]] []); reflexivity.
Defined.

(** X11.  The question matters only through its trimmed form: two
    questions that trim to the same text give the same run of the
    router, call, yields and store alike. *)
Theorem X11_question_matters_only_trimmed (be : Backends)
    (code question question' : string) (history : loc)
    (model_name : string) (h : Heap) (hist : list Message) :
  h !! history = Some hist ->
  strip question = strip question' ->
  chat_router be code question history model_name h
  = chat_router be code question' history model_name h.
Proof.
  intros Hh Hq.
  assert (Huc : user_content_of code question
                = user_content_of code question')
    by now rewrite (question_enters_trimmed code question),
                   (question_enters_trimmed code question'), Hq.
  destruct (model_of model_name) as [m|] eqn:Hm.
  - rewrite !(router_run be code _ history h hist Hh model_name m Hm).
    unfold handler_run, consumed, call_of, gpt_request, claude_request,
      llama_request.
    rewrite Huc. reflexivity.
  - now rewrite !(router_unknown_run be code _ history h model_name Hm).
Qed.

Lemma X11_witness :
  ([[]] : Heap) !! 0 = Some []
  /\ strip "  why? " = strip ("why?" +:+ nl)
  /\ chat_router answering "x" "  why? " 0 "Claude" [[]]
     = chat_router answering "x" ("why?" +:+ nl) 0 "Claude" [[]].
Proof.
  split; [reflexivity|]. split; [reflexivity|].
  apply (X11_question_matters_only_trimmed answering "x" "  why? "
           ("why?" +:+ nl) 0 "Claude" [[]] []); reflexivity.
Defined.

(** * One request after the other *)

Lemma yields_last (h : Heap) (init : list (list Message))
    (s : list Message) :
  last (outputs (yields h (init ++ [s])))
  = Some (List.length h + List.length init, "", "").
Proof.
  rewrite yields_app. unfold outputs. rewrite omap_app. cbn [yields].
  simpl. rewrite last_snoc, length_app. reflexivity.
Qed.

(** X12.  A second request made with the list the first one showed
    last.  After a first request whose stream ended without error, with
    at least one fragment, that list holds the history, the user Turn
    and the whole reply; the second request sends exactly that
    conversation to its backend, in front of its own message, and each
    of its snapshots starts with it. *)
Theorem X12_second_request_continues_the_first (be be' : Backends)
    (code question code' question' : string) (history : loc)
    (model_name model_name' : string) (m m' : Model) (h : Heap)
    (hist : list Message) (frags : list string) :
  h !! history = Some hist ->
  model_of model_name = Some m ->
  model_of model_name' = Some m' ->
  consumed be m code question hist = (frags, None) ->
  frags <> [] ->
  let r := chat_router be code question history model_name h in
  let conv := hist ++ [user_msg (user_content_of code question);
                       assistant_msg (join frags)] in
  exists shown,
    last (outputs (trace r)) = Some (shown, "", "")
    /\ store r !! shown = Some conv
    /\ let r' := chat_router be' code' question' shown model_name'
                   (store r) in
       calls (trace r') = [call_of m' code' question' conv]
       /\ request_messages (call_of m' code' question' conv)
          = system_part m' ++ conv
            ++ user_part (user_content_of code' question')
       /\ Forall (fun snap =>
                   exists body,
                     snap = conv ++ [user_msg (user_content_of code' question');
                                     assistant_msg body])
            (snapshots (trace r')).
Proof.
  intros Hh Hm Hm' Hgot Hne r conv. subst r conv.
  rewrite (router_run be code question history h hist Hh model_name m Hm).
  unfold handler_run. rewrite Hgot, built_growing, app_nil_r.
  cbn [store trace].
  pose proof (growing_last hist (user_content_of code question) frags Hne)
    as Hlast.
  apply last_Some in Hlast as [init Hinit]. rewrite Hinit.
  exists (List.length h + List.length init).
  assert (Hshown : (h ++ init ++ [turn_pair hist
                                    (user_content_of code question)
                                    (join frags)])
                   !! (List.length h + List.length init)
                   = Some (turn_pair hist (user_content_of code question)
                             (join frags))).
  { rewrite app_assoc. apply list_lookup_middle. now rewrite length_app. }
  split; [|split; [exact Hshown|]].
  - replace (outputs (call_of m code question hist :: yields h _))
      with (outputs (yields h
              (init ++ [turn_pair hist (user_content_of code question)
                          (join frags)])))
      by (destruct m; reflexivity).
    apply yields_last.
  - cbn zeta.
    rewrite (router_run be' code' question' _ _ _ Hshown model_name' m' Hm').
    rewrite handler_calls, handler_snapshots.
    split; [reflexivity|]. split; [apply request_messages_call_of|].
    apply built_turn_pairs.
Qed.

Lemma X12_witness :
  ([[]] : Heap) !! 0 = Some []
  /\ model_of "GPT" = Some GPT
  /\ model_of "Claude" = Some Claude
  /\ consumed answering GPT "x = 1" "" [] = (["Sure"; ", this prints hi"], None)
  /\ ["Sure"; ", this prints hi"] <> []
  /\ exists shown,
      last (outputs (trace (chat_router answering "x = 1" "" 0 "GPT" [[]])))
      = Some (shown, "", "")
      /\ store (chat_router answering "x = 1" "" 0 "GPT" [[]]) !! shown
         = Some ([] ++ [user_msg (user_content_of "x = 1" "");
                        assistant_msg (join ["Sure"; ", this prints hi"])])
      /\ let r' := chat_router failing "" "why?" shown "Claude"
                     (store (chat_router answering "x = 1" "" 0 "GPT" [[]]))
         in
         calls (trace r')
         = [call_of Claude "" "why?"
              ([] ++ [user_msg (user_content_of "x = 1" "");
                      assistant_msg (join ["Sure"; ", this prints hi"])])]
         /\ request_messages
              (call_of Claude "" "why?"
                 ([] ++ [user_msg (user_content_of "x = 1" "");
                         assistant_msg (join ["Sure"; ", this prints hi"])]))
            = system_part Claude
              ++ ([] ++ [user_msg (user_content_of "x = 1" "");
                         assistant_msg (join ["Sure"; ", this prints hi"])])
              ++ user_part (user_content_of "" "why?")
         /\ Forall (fun snap =>
                     exists body,
                       snap
                       = ([] ++ [user_msg (user_content_of "x = 1" "");
                                 assistant_msg
                                   (join ["Sure"; ", this prints hi"])])
                         ++ [user_msg (user_content_of "" "why?");
                             assistant_msg body])
              (snapshots (trace r')).
Proof.
  split; [reflexivity|]. split; [reflexivity|]. split; [reflexivity|].
  split; [reflexivity|]. split; [discriminate|].
  apply (X12_second_request_continues_the_first answering failing
           "x = 1" "" "" "why?" 0 "GPT" "Claude" GPT Claude [[]] []
           ["Sure"; ", this prints hi"]);
    [reflexivity | reflexivity | reflexivity | reflexivity | discriminate].
Defined.

(** * The clear button and the start-up messages *)

(** X13.  The function of the clear button builds a new, empty list and
    leaves every list of the store as it was.  A request made with that
    list sends nothing of an earlier conversation to the backend: the
    message list is the system part and the message of this turn, and
    every snapshot holds the two Turns of this request only. *)
Theorem X13_request_after_clear (be : Backends) (code question : string)
    (model_name : string) (m : Model) (h : Heap) :
  model_of model_name = Some m ->
  let c := clear_click h in
  let chatbot := List.length h in
  outcome c = Returned (chatbot, "", "")
  /\ store c = h ++ [[]]
  /\ trace c = []
  /\ let r := chat_router be code question chatbot model_name (store c) in
     let uc := user_content_of code question in
     calls (trace r) = [call_of m code question []]
     /\ request_messages (call_of m code question [])
        = system_part m ++ user_part uc
     /\ Forall (fun snap =>
                 exists body, snap = [user_msg uc; assistant_msg body])
          (snapshots (trace r)).
Proof.
  intros Hm c chatbot. subst c chatbot.
  split; [reflexivity|]. split; [reflexivity|]. split; [reflexivity|].
  cbn zeta.
  assert (Hh : store (clear_click h) !! List.length h = Some [])
    by (apply list_lookup_middle; reflexivity).
  rewrite (router_run be code question _ _ [] Hh model_name m Hm).
  rewrite handler_calls, handler_snapshots.
  split; [reflexivity|]. split.
  - now rewrite request_messages_call_of.
  - apply (built_turn_pairs (error_label m) []).
Qed.

Lemma X13_witness :
  model_of "GPT" = Some GPT
  /\ outcome (clear_click [[user_msg "old"; assistant_msg "reply"]])
     = Returned (1, "", "")
  /\ store (clear_click [[user_msg "old"; assistant_msg "reply"]])
     = [[user_msg "old"; assistant_msg "reply"]] ++ [[]]
  /\ trace (clear_click [[user_msg "old"; assistant_msg "reply"]]) = []
  /\ let r := chat_router answering "x = 1" "" 1 "GPT"
                (store (clear_click [[user_msg "old"; assistant_msg "reply"]]))
     in
     let uc := user_content_of "x = 1" "" in
     calls (trace r) = [call_of GPT "x = 1" "" []]
     /\ request_messages (call_of GPT "x = 1" "" [])
        = system_part GPT ++ user_part uc
     /\ Forall (fun snap =>
                 exists body, snap = [user_msg uc; assistant_msg body])
          (snapshots (trace r)).
Proof.
  split; [reflexivity|].
  apply (X13_request_after_clear answering "x = 1" "" "GPT" GPT
           [[user_msg "old"; assistant_msg "reply"]]).
  reflexivity.
Defined.

Lemma prefix_length (n : nat) (s : string) : String.length (prefix n s) <= n.
Proof.
  revert s; induction n as [|n IH]; intros [|c s]; simpl; try lia.
  specialize (IH s). lia.
Qed.

Lemma prefix_short (n : nat) (s : string) :
  String.length s <= n -> prefix n s = s.
Proof.
  revert s; induction n as [|n IH]; intros [|c s]; simpl; intros Hs;
    try reflexivity; try lia.
  rewrite IH by lia. reflexivity.
Qed.

(** X14.  The start-up messages show of a key its first eight
    characters (seven for the second key) and nothing after them: two
    keys that agree on those characters print the same line. *)
Theorem X14_key_messages_show_a_prefix_only (key key' : string) :
  key <> "" -> key' <> "" ->
  (prefix 8 key = prefix 8 key' ->
   openai_key_message (Some key) = openai_key_message (Some key'))
  /\ (prefix 7 key = prefix 7 key' ->
      anthropic_key_message (Some key) = anthropic_key_message (Some key'))
  /\ String.length (prefix 8 key) <= 8
  /\ String.length (prefix 7 key) <= 7.
Proof.
  intros Hk Hk'. apply truthy_true in Hk, Hk'.
  unfold openai_key_message, anthropic_key_message. rewrite Hk, Hk'.
  split; [now intros ->|]. split; [now intros ->|].
  split; apply prefix_length.
Qed.

Lemma X14_witness :
  "sk-proj-AAAA1111" <> "" /\ "sk-proj-BBBB2222" <> ""
  /\ (prefix 8 "sk-proj-AAAA1111" = prefix 8 "sk-proj-BBBB2222" ->
      openai_key_message (Some "sk-proj-AAAA1111")
      = openai_key_message (Some "sk-proj-BBBB2222"))
  /\ (prefix 7 "sk-proj-AAAA1111" = prefix 7 "sk-proj-BBBB2222" ->
      anthropic_key_message (Some "sk-proj-AAAA1111")
      = anthropic_key_message (Some "sk-proj-BBBB2222"))
  /\ String.length (prefix 8 "sk-proj-AAAA1111") <= 8
  /\ String.length (prefix 7 "sk-proj-AAAA1111") <= 7.
Proof.
  split; [discriminate|]. split; [discriminate|].
  apply (X14_key_messages_show_a_prefix_only "sk-proj-AAAA1111"
           "sk-proj-BBBB2222"); discriminate.
Defined.

Example key_message_sample :
  openai_key_message (Some "sk-proj-AAAA1111")
  = "OpenAI API Key loaded (begins with: sk-proj-)"
  /\ openai_key_message (Some "") = "WARNING: OpenAI API Key not set"
  /\ anthropic_key_message None = "WARNING: Anthropic API Key not set"
  /\ anthropic_key_message (Some "sk-a") 
     = "Anthropic API Key loaded (begins with: sk-a)".
Proof. repeat split. Qed.
